(** * Truth Report Podcast: the RSS feed generator (generate_feed.py)

    A shallow embedding of [generate_feed.py] and the properties its
    specification states about it.

    Conventions of the embedding.
    - A Python [str] is represented by its UTF-8 encoding, a Rocq [string]
      (a list of bytes).  Byte-wise lexicographic order on UTF-8 is the
      order of the code points, which is the order Python's [<] uses on
      [str]; [s.encode()] is then the list of the bytes of [s].  Strings
      that hold a lone surrogate have no UTF-8 encoding and are outside the
      embedding.
    - What [json.load] returns is a value of type [json].  JSON numbers are
      represented by integers: the program never computes with a number, it
      only tests truthiness, orders [date] values and rejects anything
      that is not a [str].
    - The script runs in a monad [M]: it reads an environment (the metadata
      file, the audio files and their sizes, the clock), it changes a state
      (the lines printed, the files written, the readings of the clock) and
      it can raise an exception, which ends the run with the state reached.
    - The modules the script imports ([os.path], [hashlib], [sorted]) are
      modelled after their CPython behaviour on POSIX, as far as the script
      observes it.  The last two statements of [generate_rss], which
      serialise the element tree with [xml.etree.ElementTree] and print it
      with [xml.dom.minidom], are a parameter [toprettyxml] of the
      embedding: a function from the tree to the bytes of the document, or
      to the exception the serialisation raises.  The properties hold for
      every such function; the items of a feed are those of the tree that
      is serialised. *)

From Stdlib Require Import ZArith List String Ascii Bool Lia Permutation Sorted.
From Stdlib Require Import DecimalString.
From Stdlib Require Import OrderedTypeEx.
Import ListNotations.

#[local] Set Warnings "-register-all".

Local Open Scope string_scope.
Local Open Scope list_scope.

(** ** hashlib.md5 (RFC 1321) on 32-bit words held in [Z] *)

Module MD5.
Local Open Scope Z_scope.

Definition wrap32 (x : Z) : Z := x mod 2 ^ 32.

Definition add32 (x y : Z) : Z := wrap32 (x + y).

Definition not32 (x : Z) : Z := Z.lxor x 0xffffffff.

Definition rotl32 (x s : Z) : Z :=
  Z.lor (wrap32 (Z.shiftl x s)) (Z.shiftr x (32 - s)).

(** The sine table: [K i = floor (2^32 * abs (sin (i + 1)))]. *)
Definition K : list Z :=
  [ 0xd76aa478; 0xe8c7b756; 0x242070db; 0xc1bdceee;
    0xf57c0faf; 0x4787c62a; 0xa8304613; 0xfd469501;
    0x698098d8; 0x8b44f7af; 0xffff5bb1; 0x895cd7be;
    0x6b901122; 0xfd987193; 0xa679438e; 0x49b40821;
    0xf61e2562; 0xc040b340; 0x265e5a51; 0xe9b6c7aa;
    0xd62f105d; 0x02441453; 0xd8a1e681; 0xe7d3fbc8;
    0x21e1cde6; 0xc33707d6; 0xf4d50d87; 0x455a14ed;
    0xa9e3e905; 0xfcefa3f8; 0x676f02d9; 0x8d2a4c8a;
    0xfffa3942; 0x8771f681; 0x6d9d6122; 0xfde5380c;
    0xa4beea44; 0x4bdecfa9; 0xf6bb4b60; 0xbebfbc70;
    0x289b7ec6; 0xeaa127fa; 0xd4ef3085; 0x04881d05;
    0xd9d4d039; 0xe6db99e5; 0x1fa27cf8; 0xc4ac5665;
    0xf4292244; 0x432aff97; 0xab9423a7; 0xfc93a039;
    0x655b59c3; 0x8f0ccc92; 0xffeff47d; 0x85845dd1;
    0x6fa87e4f; 0xfe2ce6e0; 0xa3014314; 0x4e0811a1;
    0xf7537e82; 0xbd3af235; 0x2ad7d2bb; 0xeb86d391 ].

(** Per-round left-rotation amounts. *)
Definition S : list Z :=
  [ 7; 12; 17; 22; 7; 12; 17; 22; 7; 12; 17; 22; 7; 12; 17; 22;
    5;  9; 14; 20; 5;  9; 14; 20; 5;  9; 14; 20; 5;  9; 14; 20;
    4; 11; 16; 23; 4; 11; 16; 23; 4; 11; 16; 23; 4; 11; 16; 23;
    6; 10; 15; 21; 6; 10; 15; 21; 6; 10; 15; 21; 6; 10; 15; 21 ].

Record state := mkState { sA : Z; sB : Z; sC : Z; sD : Z }.

Definition init : state :=
  mkState 0x67452301 0xefcdab89 0x98badcfe 0x10325476.

(** Padding: a 1 bit, zeros up to 56 mod 64, the bit length on 64 bits,
    little-endian. *)
Definition le_bytes (n : nat) (x : Z) : list Z :=
  map (fun i => Z.land (Z.shiftr x (8 * Z.of_nat i)) 0xff) (seq 0 n).

Definition pad (msg : list Z) : list Z :=
  let len := Z.of_nat (List.length msg) in
  let zeros := Z.to_nat ((55 - len) mod 64) in
  msg ++ [0x80] ++ repeat 0 zeros ++ le_bytes 8 ((8 * len) mod 2 ^ 64).

Fixpoint le_words (bs : list Z) : list Z :=
  match bs with
  | b0 :: b1 :: b2 :: b3 :: rest =>
      (b0 + Z.shiftl b1 8 + Z.shiftl b2 16 + Z.shiftl b3 24) :: le_words rest
  | _ => []
  end.

Definition round_fg (i : Z) (b c d : Z) : Z * Z :=
  if i <? 16 then (Z.lor (Z.land b c) (Z.land (not32 b) d), i)
  else if i <? 32 then (Z.lor (Z.land d b) (Z.land (not32 d) c), (5 * i + 1) mod 16)
  else if i <? 48 then (Z.lxor (Z.lxor b c) d, (3 * i + 5) mod 16)
  else (Z.lxor c (Z.lor b (not32 d)), (7 * i) mod 16).

Definition step (m : list Z) (st : state) (i : nat) : state :=
  let '(mkState a b c d) := st in
  let '(f, g) := round_fg (Z.of_nat i) b c d in
  let f' := add32 (add32 (add32 f a) (nth i K 0)) (nth (Z.to_nat g) m 0) in
  mkState d (add32 b (rotl32 f' (nth i S 0))) b c.

Definition compress (st : state) (m : list Z) : state :=
  let '(mkState a b c d) := fold_left (step m) (seq 0 64) st in
  mkState (add32 (sA st) a) (add32 (sB st) b) (add32 (sC st) c) (add32 (sD st) d).

(** The message words, sixteen at a time. *)
Fixpoint blocks (fuel : nat) (ws : list Z) : list (list Z) :=
  match fuel, ws with
  | O, _ | _, [] => []
  | Datatypes.S fuel', _ => firstn 16 ws :: blocks fuel' (skipn 16 ws)
  end.

Definition digest (msg : list Z) : list Z :=
  let ws := le_words (pad msg) in
  let '(mkState a b c d) := fold_left compress (blocks (List.length ws) ws) init in
  le_bytes 4 a ++ le_bytes 4 b ++ le_bytes 4 c ++ le_bytes 4 d.

Definition hex_digit (x : Z) : ascii :=
  nth (Z.to_nat x)
      (list_ascii_of_string "0123456789abcdef") "0"%char.

Definition hex_byte (b : Z) : string :=
  String (hex_digit (b / 16)) (String (hex_digit (b mod 16)) EmptyString).

Definition hexdigest (msg : list Z) : string :=
  String.concat "" (map hex_byte (digest msg)).

End MD5.

(** [s.encode()]: the bytes of a string. *)
Definition encode (s : string) : list Z :=
  map (fun c => Z.of_N (N_of_ascii c)) (list_ascii_of_string s).

(** [hashlib.md5(s.encode()).hexdigest()] *)
Definition md5_hex (s : string) : string := MD5.hexdigest (encode s).


(** ** Python values and exceptions *)

(** What [json.load] can return. *)
Inductive json : Type :=
  | JNull
  | JBool (b : bool)
  | JNum (n : Z)
  | JStr (s : string)
  | JArr (items : list json)
  | JObj (fields : list (string * json)).

(** The exceptions the script can meet. *)
Inductive exn : Type :=
  | KeyError (key : string)
  | AttributeError
  | TypeError
  | JSONDecodeError
  | ExpatError
  | OSError.

Inductive Result (A : Type) : Type :=
  | Ok (a : A)
  | Raise (e : exn).

Arguments Ok {A} a.
Arguments Raise {A} e.

Definition is_ok {A} (r : Result A) : bool :=
  match r with Ok _ => true | Raise _ => false end.

Definition rbind {A B} (r : Result A) (k : A -> Result B) : Result B :=
  match r with
  | Ok a => k a
  | Raise e => Raise e
  end.

Fixpoint rmap {A B} (f : A -> Result B) (l : list A) : Result (list B) :=
  match l with
  | [] => Ok []
  | x :: l' =>
      rbind (f x) (fun y => rbind (rmap f l') (fun ys => Ok (y :: ys)))
  end.

(** A dict is held as its items in insertion order; a key is looked up at
    its first item. *)
Fixpoint dict_get {V} (d : list (string * V)) (k : string) : option V :=
  match d with
  | [] => None
  | (k', v) :: d' => if String.eqb k k' then Some v else dict_get d' k
  end.

(** [bool(x)] *)
Definition truthy (x : json) : bool :=
  match x with
  | JNull => false
  | JBool b => b
  | JNum n => negb (n =? 0)%Z
  | JStr s => negb (String.eqb s "")
  | JArr l => match l with [] => false | _ => true end
  | JObj d => match d with [] => false | _ => true end
  end.

(** [x.get(k, default)]: only a dict has the method. *)
Definition py_get (x : json) (k : string) (default : json) : Result json :=
  match x with
  | JObj d => Ok (match dict_get d k with Some v => v | None => default end)
  | _ => Raise AttributeError
  end.

(** [x.get(k)], whose default is [None]. *)
Definition py_get_none (x : json) (k : string) : Result json :=
  py_get x k JNull.

(** [x[k]] for a string key [k]. *)
Definition py_getitem (x : json) (k : string) : Result json :=
  match x with
  | JObj d =>
      match dict_get d k with
      | Some v => Ok v
      | None => Raise (KeyError k)
      end
  | _ => Raise TypeError
  end.

(** [x.encode()] *)
Definition py_encode (x : json) : Result (list Z) :=
  match x with
  | JStr s => Ok (encode s)
  | _ => Raise AttributeError
  end.

(** The numeric value of an [int] or a [bool]. *)
Definition as_number (x : json) : option Z :=
  match x with
  | JNum n => Some n
  | JBool b => Some (if b then 1 else 0)%Z
  | _ => None
  end.

(** [a == b] *)
Fixpoint py_eq (a b : json) {struct a} : bool :=
  match a, b with
  | JNull, JNull => true
  | JStr s, JStr t => String.eqb s t
  | JArr l, JArr m =>
      (fix go (l m : list json) : bool :=
         match l, m with
         | [], [] => true
         | x :: l', y :: m' => py_eq x y && go l' m'
         | _, _ => false
         end) l m
  | JObj d, JObj e =>
      Nat.eqb (List.length d) (List.length e)
      && (fix go (d : list (string * json)) : bool :=
            match d with
            | [] => true
            | (k, v) :: d' =>
                match dict_get e k with
                | Some w => py_eq v w
                | None => false
                end && go d'
            end) d
  | JNum n, _ =>
      match as_number b with Some m => (n =? m)%Z | None => false end
  | JBool x, _ =>
      match as_number b with
      | Some m => ((if x then 1 else 0) =? m)%Z
      | None => false
      end
  | _, _ => false
  end.

(** [a < b]: defined between two strings, between two numbers, and between
    two lists (at the first pair of items that are not equal, else by
    length); a [TypeError] otherwise. *)
Fixpoint py_lt (a b : json) {struct a} : Result bool :=
  match a, b with
  | JStr s, JStr t => Ok (String.ltb s t)
  | JArr l, JArr m =>
      (fix go (l m : list json) : Result bool :=
         match l, m with
         | [], [] => Ok false
         | [], _ :: _ => Ok true
         | _ :: _, [] => Ok false
         | x :: l', y :: m' => if py_eq x y then go l' m' else py_lt x y
         end) l m
  | JNum n, _ =>
      match as_number b with Some m => Ok (n <? m)%Z | None => Raise TypeError end
  | JBool x, _ =>
      match as_number b with
      | Some m => Ok ((if x then 1 else 0) <? m)%Z
      | None => Raise TypeError
      end
  | _, _ => Raise TypeError
  end.

(** The code points of a string: a byte [10xxxxxx] continues the one before. *)
Definition is_continuation (c : ascii) : bool :=
  let n := N_of_ascii c in ((128 <=? n) && (n <? 192))%N.

Fixpoint chars (s : string) : list string :=
  match s with
  | EmptyString => []
  | String c s' =>
      let r := chars s' in
      match s' with
      | String c' _ =>
          if is_continuation c'
          then match r with
               | h :: t => String c h :: t
               | [] => [String c EmptyString]
               end
          else String c EmptyString :: r
      | EmptyString => String c EmptyString :: r
      end
  end.

(** [list(x)]: the items of a list, the keys of a dict, the characters of a
    string. *)
Definition py_iter (x : json) : Result (list json) :=
  match x with
  | JArr l => Ok l
  | JObj d => Ok (map (fun kv => JStr (fst kv)) d)
  | JStr s => Ok (map JStr (chars s))
  | _ => Raise TypeError
  end.

(** [len(x)] *)
Definition py_len (x : json) : Result nat :=
  rbind (py_iter x) (fun l => Ok (List.length l)).

(** [str(n)] for a natural number. *)
Definition str_of_N (n : N) : string :=
  NilEmpty.string_of_uint (N.to_uint n).

Definition str_of_nat (n : nat) : string := str_of_N (N.of_nat n).

(** ** os.path on POSIX *)

Fixpoint endswith_sep (s : string) : bool :=
  match s with
  | EmptyString => false
  | String c EmptyString => Ascii.eqb c "/"
  | String _ s' => endswith_sep s'
  end.

(** [os.path.join(a, b)] on two strings: an absolute [b] replaces [a]. *)
Definition posix_join (a b : string) : string :=
  if String.prefix "/" b then b
  else if String.eqb a "" || endswith_sep a then (a ++ b)%string
  else (a ++ "/" ++ b)%string.

(** [os.path.join(a, b)]: a [TypeError] when [b] is not a string. *)
Definition os_path_join (a : string) (b : json) : Result string :=
  match b with
  | JStr b => Ok (posix_join a b)
  | _ => Raise TypeError
  end.

(** ** sorted(iterable, key=..., reverse=True)

    CPython first lists the iterable, then calls [key] once on every
    element, in order, and only then compares the keys, with [<] alone.
    The sort is stable, also under [reverse=True]: elements whose keys are
    equal keep their input order.  When every comparison it makes succeeds
    the result is the one stable descending order, which the insertion sort
    below computes; a comparison that raises ends the sort with that
    exception.  Which pairs CPython compares is not modelled.  For keys
    that are strings, numbers, [None] or dicts this makes no difference:
    given two keys or more, either sort compares every key with some other
    key and can only finish when all the keys are strings or all are
    numbers.  Only keys that are
    lists, which can be ordered with some lists and not with others, could
    make the two sorts differ in whether they raise. *)

Section Sorted.
Context {A : Type}.

Fixpoint insert_desc (kx : json * A) (l : list (json * A))
  : Result (list (json * A)) :=
  match l with
  | [] => Ok [kx]
  | ky :: l' =>
      rbind (py_lt (fst kx) (fst ky)) (fun lt =>
        if lt then rbind (insert_desc kx l') (fun r => Ok (ky :: r))
        else Ok (kx :: l))
  end.

Fixpoint sort_desc (l : list (json * A)) : Result (list (json * A)) :=
  match l with
  | [] => Ok []
  | kx :: l' => rbind (sort_desc l') (insert_desc kx)
  end.
End Sorted.

Definition sorted_reverse (key : json -> Result json) (iterable : json)
  : Result (list json) :=
  rbind (py_iter iterable) (fun l =>
  rbind (rmap key l) (fun keys =>
  rbind (sort_desc (combine keys l)) (fun s =>
  Ok (map snd s)))).

(** ** ElementTree elements

    [text] is whatever object was assigned to it ([JNull] when it was never
    set); [attrib] keeps the order in which the attributes were set. *)

Inductive Element : Type :=
  Elem (tag : string) (attrib : list (string * string)) (text : json)
       (children : list Element).

Definition tag_of (e : Element) : string :=
  let '(Elem t _ _ _) := e in t.

Definition attrib_of (e : Element) : list (string * string) :=
  let '(Elem _ a _ _) := e in a.

Definition text_of (e : Element) : json :=
  let '(Elem _ _ x _) := e in x.

Definition children_of (e : Element) : list Element :=
  let '(Elem _ _ _ c) := e in c.

(** [elem.findall(t)]: the children with tag [t], in document order. *)
Definition findall (t : string) (e : Element) : list Element :=
  filter (fun c => String.eqb (tag_of c) t) (children_of e).

(** [elem.findtext(t)]: the text of the first child with tag [t]. *)
Definition findtext (t : string) (e : Element) : option json :=
  match findall t e with
  | c :: _ => Some (text_of c)
  | [] => None
  end.

(** ** The script's constants *)

Record PodcastConfig := mkPodcast {
  title : string;
  description : string;
  author : string;
  email : string;
  website : string;
  language : string;
  category : string;
  subcategory : string;
  image : string;
  base_url : string;
  explicit : string
}.

Definition PODCAST : PodcastConfig := {|
  title := "The Truth Report";
  description :=
    "AI-produced investigative journalism exposing underreported stories. "
    ++ "Hosted by Alex Truth and Maya Clarity. Researched by Aurora (Gemini), "
    ++ "scripted and produced by Claudia (Claude). A JackKnifeAI production.";
  author := "JackKnifeAI";
  email := "jackknifeai@gmail.com";
  website := "https://jackknifeai.github.io/truth-report-podcast";
  language := "en";
  category := "News";
  subcategory := "News Commentary";
  image := "https://jackknifeai.github.io/truth-report-podcast/cover.png";
  base_url := "https://jackknifeai.github.io/truth-report-podcast";
  explicit := "no"
|}%string.

Definition EPISODES_DIR : string := "episodes".
Definition EPISODES_META : string := "episodes.json".

(** ** The world the script runs in *)

(** [episodes.json]: absent, present but not JSON, or present with the
    value [json.load] returns for it. *)
Inductive MetaFile : Type :=
  | Absent
  | NotJson
  | Content (j : json).

Record Env := mkEnv {
  (** the metadata file, at [EPISODES_META] *)
  episodes_meta : MetaFile;
  (** [Some n] for a path that exists, [n] its size in bytes *)
  stat : string -> option N;
  (** the k-th reading of
      [datetime.now(timezone.utc).strftime("%a, %d %b %Y %H:%M:%S +0000")] *)
  utcnow : nat -> string
}.

Record State := mkSt {
  (** how often the clock has been read *)
  clock_reads : nat;
  (** the lines printed so far, oldest first *)
  stdout : list string;
  (** the files opened for writing so far, with what was written *)
  written : list (string * string)
}.

Definition initial : State := mkSt 0 [] [].

(** Reader for [Env], state for [State], errors for exceptions. *)
Definition M (A : Type) : Type := Env -> State -> State * Result A.

Definition ret {A} (a : A) : M A := fun _ st => (st, Ok a).

Definition raise {A} (e : exn) : M A := fun _ st => (st, Raise e).

Definition bind {A B} (m : M A) (k : A -> M B) : M B :=
  fun env st =>
    match m env st with
    | (st', Ok a) => k a env st'
    | (st', Raise e) => (st', Raise e)
    end.

Definition lift {A} (r : Result A) : M A := fun _ st => (st, r).

Declare Scope py_scope.
Delimit Scope py_scope with py.
Notation "x <- m ;; k" := (bind m (fun x => k))
  (at level 61, m at next level, right associativity) : py_scope.
Notation "m ;; k" := (bind m (fun _ => k))
  (at level 61, right associativity) : py_scope.
Local Open Scope py_scope.

(** [print(line)] *)
Definition print (line : string) : M unit :=
  fun _ st =>
    (mkSt (clock_reads st) (stdout st ++ [line]) (written st), Ok tt).

(** [os.path.exists(path)] *)
Definition os_path_exists (path : string) : M bool :=
  fun env st =>
    (st, Ok (match stat env path with Some _ => true | None => false end)).

(** [os.path.getsize(path)] *)
Definition os_path_getsize (path : string) : M N :=
  fun env st =>
    (st, match stat env path with Some n => Ok n | None => Raise OSError end).

(** [datetime.now(timezone.utc).strftime(...)] *)
Definition strftime_now : M string :=
  fun env st =>
    (mkSt (S (clock_reads st)) (stdout st) (written st),
     Ok (utcnow env (clock_reads st))).

(** [with open(path, "wb") as f: f.write(data)] *)
Definition write_file (path data : string) : M unit :=
  fun _ st =>
    (mkSt (clock_reads st) (stdout st) (written st ++ [(path, data)]), Ok tt).

(** ** generate_feed.py *)

(** [load_episodes()] *)
Definition load_episodes : M json :=
  fun env st =>
    match episodes_meta env with
    | Content j => (st, Ok j)
    | NotJson => (st, Raise JSONDecodeError)
    | Absent => (st, Ok (JArr []))
    end.

(** [get_file_size(filepath)] *)
Definition get_file_size (filepath : string) : M N :=
  os_path_getsize filepath.

(** [generate_guid(episode)] *)
Definition generate_guid (episode : json) : Result string :=
  rbind (py_getitem episode "filename") (fun filename =>
  rbind (py_encode filename) (fun bytes =>
  Ok (MD5.hexdigest bytes))).

(** [SubElement(parent, tag).text = text] *)
Definition text_elem (tag : string) (text : json) : Element :=
  Elem tag [] text [].

(** The children the channel has before the loop over the episodes. *)
Definition channel_metadata : list Element :=
  [ text_elem "title" (JStr (title PODCAST));
    text_elem "description" (JStr (description PODCAST));
    text_elem "language" (JStr (language PODCAST));
    text_elem "link" (JStr (website PODCAST));
    Elem "atom:link"
         [ ("href", base_url PODCAST ++ "/feed.xml");
           ("rel", "self");
           ("type", "application/rss+xml") ]%string JNull [];
    text_elem "itunes:author" (JStr (author PODCAST));
    text_elem "itunes:summary" (JStr (description PODCAST));
    text_elem "itunes:explicit" (JStr (explicit PODCAST));
    Elem "itunes:owner" [] JNull
         [ text_elem "itunes:name" (JStr (author PODCAST));
           text_elem "itunes:email" (JStr (email PODCAST)) ];
    Elem "itunes:image" [("href", image PODCAST)] JNull [];
    Elem "itunes:category" [("text", category PODCAST)] JNull
         [ Elem "itunes:category" [("text", subcategory PODCAST)] JNull [] ] ].

Definition rss_element (items : list Element) : Element :=
  Elem "rss"
       [ ("version", "2.0");
         ("xmlns:itunes", "http://www.itunes.com/dtds/podcast-1.0.dtd");
         ("xmlns:content", "http://purl.org/rss/1.0/modules/content/");
         ("xmlns:atom", "http://www.w3.org/2005/Atom") ]%string JNull
       [ Elem "channel" [] JNull (channel_metadata ++ items) ].

(** The key of the sort: [lambda x: x.get("date", "")]. *)
Definition date_key (x : json) : Result json := py_get x "date" (JStr "").

Definition warning_line (filepath : string) : string :=
  ("WARNING: " ++ filepath ++ " not found, skipping")%string.

(** The [itunes:duration] child, under [if ep.get("duration"):]. *)
Definition duration_children (ep : json) : Result (list Element) :=
  rbind (py_get_none ep "duration") (fun d =>
  if truthy d
  then rbind (py_getitem ep "duration") (fun d' =>
       Ok [text_elem "itunes:duration" d'])
  else Ok []).

(** The [item] element of an episode, from the values the loop has
    evaluated for it. *)
Definition item_element (title description summary : json)
    (duration : list Element) (guid : string) (pubDate : json)
    (fname : string) (length : N) : Element :=
  Elem "item" [] JNull
    ([ text_elem "title" title;
       text_elem "description" description;
       text_elem "itunes:summary" summary;
       text_elem "itunes:author" (JStr (author PODCAST));
       text_elem "itunes:explicit" (JStr (explicit PODCAST)) ]
     ++ duration
     ++ [ text_elem "guid" (JStr guid);
          text_elem "pubDate" pubDate;
          Elem "enclosure"
               [ ("url", base_url PODCAST ++ "/episodes/" ++ fname);
                 ("length", str_of_N length);
                 ("type", "audio/mpeg") ]%string JNull [] ]).

(** One turn of the loop of [generate_rss]: [None] at [continue], else the
    item appended to the channel.  [os.path.join] raises a [TypeError] on a
    filename that is not a string, which the match on [filename] stands
    for; past it the filename is the string [fname], which the f-string of
    the enclosure formats as itself. *)
Definition episode_item (ep : json) : M (option Element) :=
  filename <- lift (py_getitem ep "filename") ;;
  match filename with
  | JStr fname =>
      filepath <- lift (os_path_join EPISODES_DIR filename) ;;
      found <- os_path_exists filepath ;;
      if negb found then
        print (warning_line filepath) ;;
        ret None
      else
        title <- lift (py_getitem ep "title") ;;
        description <- lift (py_get ep "description" (JStr "")) ;;
        summary <- lift (py_get ep "description" (JStr "")) ;;
        duration <- lift (duration_children ep) ;;
        guid <- lift (generate_guid ep) ;;
        now <- strftime_now ;;
        pubDate <- lift (py_get ep "date" (JStr now)) ;;
        length <- get_file_size filepath ;;
        ret (Some (item_element title description summary duration guid
                                pubDate fname length))
  | _ => raise TypeError
  end.

(** The loop: the items of the episodes that were not skipped, in order. *)
Fixpoint episode_items (eps : list json) : M (list Element) :=
  match eps with
  | [] => ret []
  | ep :: rest =>
      item <- episode_item ep ;;
      items <- episode_items rest ;;
      ret (match item with Some i => i :: items | None => items end)
  end.

(** The element tree [generate_rss] has built when it reaches
    [# Pretty print]. *)
Definition build_rss (episodes : json) : M Element :=
  eps <- lift (sorted_reverse date_key episodes) ;;
  items <- episode_items eps ;;
  ret (rss_element items).

Section Feed.

(** [parseString(tostring(rss, encoding="unicode"))
       .toprettyxml(indent="  ", encoding="UTF-8")]:
    the bytes of the document, a function of the element tree, or the
    exception the serialisation raises. *)
Variable toprettyxml : Element -> Result string.

(** [generate_rss(episodes)] *)
Definition generate_rss (episodes : json) : M string :=
  rss <- build_rss episodes ;;
  lift (toprettyxml rss).

(** [main()] *)
Definition main : M unit :=
  episodes <- load_episodes ;;
  if negb (truthy episodes) then
    print "No episodes found in episodes.json!"
  else
    feed <- generate_rss episodes ;;
    write_file "feed.xml" feed ;;
    n <- lift (py_len episodes) ;;
    print ("Generated feed.xml with " ++ str_of_nat n ++ " episodes")%string ;;
    print ("Feed URL: " ++ base_url PODCAST ++ "/feed.xml")%string.

End Feed.

(** ** Vocabulary of the specification *)

(** The value a record holds under a key; nothing for a value that is not a
    mapping. *)
Definition field (ep : json) (k : string) : option json :=
  match ep with
  | JObj d => dict_get d k
  | _ => None
  end.

Definition is_mapping (x : json) : bool :=
  match x with JObj _ => true | _ => false end.

Definition is_str (x : json) : bool :=
  match x with JStr _ => true | _ => false end.

Definition absent_or_str (o : option json) : bool :=
  match o with
  | None => true
  | Some x => is_str x
  end.

Definition present_str (o : option json) : bool :=
  match o with
  | None => false
  | Some x => is_str x
  end.

(** An EpisodeRecord of the data model: a mapping whose [filename] and
    [title] are strings and whose [description], [duration] and [date] are
    strings when they are there. *)
Definition well_formed (ep : json) : bool :=
  is_mapping ep
  && present_str (field ep "filename")
  && present_str (field ep "title")
  && absent_or_str (field ep "description")
  && absent_or_str (field ep "duration")
  && absent_or_str (field ep "date").

(** The resolved audio file path of a record: the episodes directory joined
    with its filename. *)
Definition audio_path (ep : json) : option string :=
  match field ep "filename" with
  | Some (JStr f) => Some (posix_join EPISODES_DIR f)
  | _ => None
  end.

Definition path_exists (env : Env) (p : string) : bool :=
  match stat env p with Some _ => true | None => false end.

Definition audio_exists (env : Env) (ep : json) : bool :=
  match audio_path ep with
  | Some p => path_exists env p
  | None => false
  end.

Definition audio_missing (env : Env) (ep : json) : bool :=
  match audio_path ep with
  | Some p => negb (path_exists env p)
  | None => false
  end.

(** A record the loop can sort and pass: a mapping with a string for a
    filename, a string or nothing for a date, and a title when its audio
    file exists. *)
Definition sortable (ep : json) : bool :=
  is_mapping ep && absent_or_str (field ep "date").

Definition passable (env : Env) (ep : json) : bool :=
  match audio_path ep with
  | Some p =>
      if path_exists env p
      then match field ep "title" with Some _ => true | None => false end
      else true
  | None => false
  end.

(** The item the loop builds for a record when the clock has been read [k]
    times. *)
Definition item_for (env : Env) (k : nat) (ep : json)
  : Result (option Element) :=
  snd (episode_item ep env (mkSt k [] [])).

(** The value under a key, or a default. *)
Definition field_or (ep : json) (k : string) (default : json) : json :=
  match field ep k with Some v => v | None => default end.

(** The duration child of a record: there when the field is truthy. *)
Definition duration_of (ep : json) : list Element :=
  match field ep "duration" with
  | Some v => if truthy v then [text_elem "itunes:duration" v] else []
  | None => []
  end.

(** The item of a record with filename [f], title [t] and an audio file of
    [n] bytes, at the [k]-th reading of the clock. *)
Definition item_at (env : Env) (k : nat) (ep : json)
    (f : string) (t : json) (n : N) : Element :=
  item_element t (field_or ep "description" (JStr ""))
               (field_or ep "description" (JStr "")) (duration_of ep)
               (md5_hex f) (field_or ep "date" (JStr (utcnow env k))) f n.

(** Every key is the string [date_of] gives for its element. *)
Definition keyed_by {A} (date_of : A -> string) (l : list (json * A)) : Prop :=
  Forall (fun kx => fst kx = JStr (date_of (snd kx))) l.

(** [a] may stand before [b]: its string is not less than that of [b]. *)
Definition desc_by {A} (date_of : A -> string) (a b : json * A) : Prop :=
  String.ltb (date_of (snd a)) (date_of (snd b)) = false.

(** Keys that are all strings. *)
Definition str_keyed {A} (l : list (json * A)) : Prop :=
  Forall (fun kx => is_str (fst kx) = true) l.

(** An item of the feed and the record it was built from. *)
Definition item_of (env : Env) (ep : json) (item : Element) : Prop :=
  exists k, item_for env k ep = Ok (Some item).

(** A warning line and the record it was printed for. *)
Definition warning_of (ep : json) (line : string) : Prop :=
  exists p, audio_path ep = Some p /\ line = warning_line p.

(** The [item] elements of a feed: those of its [channel]. *)
Definition feed_items (rss : Element) : list Element :=
  flat_map (findall "item") (findall "channel" rss).

(** The record has no [date]. *)
Definition omits_date (ep : json) : bool :=
  match ep with
  | JObj d => match dict_get d "date" with None => true | Some _ => false end
  | _ => false
  end.

(** The records of the metadata file. *)
Definition records (m : MetaFile) : list json :=
  match m with
  | Content (JArr l) => l
  | _ => []
  end.

(** The metadata file holds an array of mappings. *)
Definition array_of_mappings (j : json) : bool :=
  match j with
  | JArr l => forallb is_mapping l
  | _ => false
  end.

(** A serialiser to run the script with: it writes the tags and the string
    texts of the tree, and leaves out the attributes. *)
Fixpoint tags_of (e : Element) : string :=
  let '(Elem t _ x c) := e in
  ("<" ++ t ++ ">"
   ++ match x with JStr s => s | _ => "" end
   ++ String.concat "" (map tags_of c)
   ++ "</" ++ t ++ ">")%string.

Definition toy_xml (e : Element) : Result string := Ok (tags_of e).

(** The string a record is sorted by: its date, [""] when it has none. *)
Definition date_str (ep : json) : string :=
  match field ep "date" with
  | Some (JStr s) => s
  | _ => ""
  end.

(** [a] may stand before [b] in the sorted list: its date string is not
    less than that of [b]. *)
Definition not_before (a b : json) : Prop :=
  String.ltb (date_str a) (date_str b) = false.

(** The state after one more printed line. *)
Definition with_line (st : State) (line : string) : State :=
  mkSt (clock_reads st) (stdout st ++ [line]) (written st).

(** The lines [main] prints. *)
Definition no_episodes_line : string := "No episodes found in episodes.json!".

Definition generated_line (n : nat) : string :=
  ("Generated feed.xml with " ++ str_of_nat n ++ " episodes")%string.

Definition feed_url_line : string :=
  ("Feed URL: " ++ base_url PODCAST ++ "/feed.xml")%string.

(** What [main] does once [generate_rss] has returned [feed] for [n]
    loaded records. *)
Definition finished (st : State) (feed : string) (n : nat) : State :=
  mkSt (clock_reads st) (stdout st ++ [generated_line n; feed_url_line])
       (written st ++ [("feed.xml", feed)]).

(** Pairwise different strings. *)
Fixpoint distinct (l : list string) : bool :=
  match l with
  | [] => true
  | x :: l' => negb (existsb (String.eqb x) l') && distinct l'
  end.

(** ** The scenarios of the specification *)

Definition jan1 : string := "Wed, 01 Jan 2025 00:00:00 +0000".
Definition jan2 : string := "Thu, 02 Jan 2025 00:00:00 +0000".

Definition ep_jan1 : json :=
  JObj [ ("filename", JStr "ep1.mp3"); ("title", JStr "Episode 1");
         ("date", JStr jan1) ].

Definition ep_jan2 : json :=
  JObj [ ("filename", JStr "ep2.mp3"); ("title", JStr "Episode 2");
         ("date", JStr jan2) ].

Definition ep_undated : json :=
  JObj [ ("filename", JStr "ep3.mp3"); ("title", JStr "Episode 3") ].

(** A record with no title. *)
Definition ep_untitled : json :=
  JObj [ ("filename", JStr "ep4.mp3"); ("date", JStr jan1) ].

(** A record with no filename. *)
Definition ep_unnamed : json :=
  JObj [ ("title", JStr "Episode 5"); ("date", JStr jan2) ].

Definition a_time : string := "Fri, 03 Jan 2025 12:00:00 +0000".
Definition another_time : string := "Sat, 04 Jan 2025 12:00:00 +0000".

(** Every audio file is there, [size] bytes long. *)
Definition all_audio (size : N) : string -> option N := fun _ => Some size.

(** Every audio file is there but the one at [path]. *)
Definition audio_but (path : string) : string -> option N :=
  fun p => if String.eqb p path then None else Some 1000%N.

(** The three records of the sorting scenario, with all their audio. *)
Definition scenario_env : Env :=
  mkEnv (Content (JArr [ep_jan1; ep_jan2; ep_undated]))
        (all_audio 1000) (fun _ => a_time).

(** The possible orders of three records in the metadata file. *)
Definition orders3 {A} (a b c : A) : list (list A) :=
  [ [a; b; c]; [a; c; b]; [b; a; c]; [b; c; a]; [c; a; b]; [c; b; a] ].

(** File names of a feed, to test the guids on. *)
Definition corpus : list string :=
  [ "ep1.mp3"; "ep2.mp3"; "ep3.mp3"; "ep4.mp3"; "ep10.mp3"; "EP1.mp3";
    "ep1.MP3"; "ep1.mp4"; "episode-001.mp3"; "episode-002.mp3";
    "episode_001.mp3"; "2025-01-01-truth-report.mp3";
    "2025-01-02-truth-report.mp3"; "trailer.mp3"; "Trailer.mp3"; "" ].

(** ** Vocabulary of the further properties *)

(** The exception one turn of the loop raises on a record, if any. *)
Definition turn_error (env : Env) (ep : json) : option exn :=
  match ep with
  | JObj d =>
      match dict_get d "filename" with
      | None => Some (KeyError "filename")
      | Some (JStr f) =>
          match stat env (posix_join EPISODES_DIR f), dict_get d "title" with
          | Some _, None => Some (KeyError "title")
          | _, _ => None
          end
      | Some _ => Some TypeError
      end
  | _ => Some TypeError
  end.





(** The tags of the children of an element, in document order. *)
Definition child_tags (e : Element) : list string :=
  map tag_of (children_of e).

(** The attributes of the first child with tag [t]. *)
Definition findattrib (t : string) (e : Element)
  : option (list (string * string)) :=
  match findall t e with
  | c :: _ => Some (attrib_of c)
  | [] => None
  end.

(** The item of the record [fst epk] was built at the reading [snd epk] of
    the clock, which is the date it carries when the record has none. *)
Definition built_at (env : Env) (epk : json * nat) (item : Element) : Prop :=
  item_for env (snd epk) (fst epk) = Ok (Some item)
  /\ findtext "pubDate" item
     = Some (field_or (fst epk) "date" (JStr (utcnow env (snd epk)))).

(** A line is the warning of some record of [eps] whose audio file is
    missing. *)
Definition warns_about (env : Env) (eps : list json) (line : string) : Prop :=
  exists ep p, In ep eps /\ audio_path ep = Some p
               /\ path_exists env p = false /\ line = warning_line p.

(** * Properties *)

(** ** Results and lists of results *)

Lemma rmap_length {A B} (f : A -> Result B) (l : list A) (r : list B) :
  rmap f l = Ok r -> List.length r = List.length l.
Proof.
  revert r; induction l as [|x l IH]; simpl; intros r H.
  - injection H as <-. reflexivity.
  - destruct (f x) as [y|e]; simpl in H; [|discriminate].
    destruct (rmap f l) as [ys|e]; simpl in H; [|discriminate].
    injection H as <-. simpl. f_equal. now apply IH.
Qed.

Lemma rmap_raises {A B} (f : A -> Result B) (l : list A) (x : A) :
  In x l -> is_ok (f x) = false -> is_ok (rmap f l) = false.
Proof.
  induction l as [|y l IH]; simpl; [tauto|].
  intros [->|Hin] Hx.
  - destruct (f x); [discriminate|reflexivity].
  - destruct (f y); simpl; [|reflexivity].
    specialize (IH Hin Hx). destruct (rmap f l); [discriminate|reflexivity].
Qed.

Lemma rmap_ok {A B} (f : A -> Result B) (g : A -> B) (l : list A) :
  Forall (fun x => f x = Ok (g x)) l -> rmap f l = Ok (map g l).
Proof.
  induction 1 as [|x l Hx _ IH]; simpl; [reflexivity|].
  now rewrite Hx, IH.
Qed.

Lemma snd_combine {A B} (k : list A) (l : list B) :
  List.length k = List.length l -> map snd (combine k l) = l.
Proof.
  revert l; induction k as [|a k IH]; intros [|b l]; simpl; try discriminate.
  - reflexivity.
  - intros [= H]. f_equal. now apply IH.
Qed.

(** ** The sort *)

Section SortFacts.
Context {A : Type}.
Implicit Types (kx : json * A) (l r : list (json * A)).

Lemma insert_desc_perm kx l r :
  insert_desc kx l = Ok r -> Permutation (kx :: l) r.
Proof.
  revert r; induction l as [|ky l IH]; simpl; intros r H.
  - injection H as <-. apply Permutation_refl.
  - destruct (py_lt (fst kx) (fst ky)) as [[|]|e]; simpl in H;
      try discriminate.
    + destruct (insert_desc kx l) as [r'|e]; simpl in H; [|discriminate].
      injection H as <-.
      eapply perm_trans; [apply perm_swap|].
      apply perm_skip. now apply IH.
    + injection H as <-. apply Permutation_refl.
Qed.

Lemma sort_desc_perm l r : sort_desc l = Ok r -> Permutation l r.
Proof.
  revert r; induction l as [|kx l IH]; simpl; intros r H.
  - injection H as <-. constructor.
  - destruct (sort_desc l) as [r'|e]; simpl in H; [|discriminate].
    eapply perm_trans; [apply perm_skip, IH; reflexivity|].
    now apply insert_desc_perm.
Qed.

(** Keys that are all strings can be ordered. *)
Lemma insert_desc_str kx l :
  is_str (fst kx) = true -> str_keyed l ->
  exists r, insert_desc kx l = Ok r /\ str_keyed r.
Proof.
  intros Hk Hl. induction Hl as [|ky l Hy Hl IH]; simpl.
  - eexists; split; [reflexivity|]. now constructor.
  - destruct kx as [k x], ky as [k' y]; simpl in *.
    destruct k; try discriminate. destruct k'; try discriminate.
    simpl. destruct (String.ltb s s0).
    + destruct IH as (r & -> & Hr). simpl.
      eexists; split; [reflexivity|]. now constructor.
    + eexists; split; [reflexivity|].
      constructor; [reflexivity|]. now constructor.
Qed.

Lemma sort_desc_str l :
  str_keyed l -> exists r, sort_desc l = Ok r /\ str_keyed r.
Proof.
  induction 1 as [|kx l Hk Hl IH]; simpl.
  - eexists; split; [reflexivity|]. constructor.
  - destruct IH as (r' & -> & Hr'). simpl.
    now apply insert_desc_str.
Qed.
End SortFacts.

Lemma sorted_reverse_iter key j s :
  sorted_reverse key j = Ok s ->
  exists l, py_iter j = Ok l /\ Permutation l s.
Proof.
  unfold sorted_reverse.
  destruct (py_iter j) as [l|e]; simpl; [|discriminate].
  destruct (rmap key l) as [keys|e] eqn:Hk; simpl; [|discriminate].
  destruct (sort_desc (combine keys l)) as [r|e] eqn:Hs; simpl; [|discriminate].
  intros [= <-]. exists l. split; [reflexivity|].
  apply sort_desc_perm in Hs.
  apply (Permutation_map snd) in Hs.
  rewrite snd_combine in Hs by (now apply rmap_length in Hk).
  exact Hs.
Qed.

Lemma sorted_reverse_perm key l s :
  sorted_reverse key (JArr l) = Ok s -> Permutation l s.
Proof.
  intros H. destruct (sorted_reverse_iter _ _ _ H) as (l' & [= <-] & Hp).
  exact Hp.
Qed.

(** The key function raises on whatever is not a mapping, so a sort that
    succeeds was given mappings only. *)
Lemma sorted_reverse_mappings j s :
  sorted_reverse date_key j = Ok s ->
  exists l, py_iter j = Ok l /\ forallb is_mapping l = true.
Proof.
  unfold sorted_reverse.
  destruct (py_iter j) as [l|e]; simpl; [|discriminate].
  destruct (rmap date_key l) as [keys|e] eqn:Hk; simpl; [|discriminate].
  intros _. exists l. split; [reflexivity|].
  apply forallb_forall. intros x Hx.
  destruct (is_mapping x) eqn:Hm; [reflexivity|].
  assert (Hr : is_ok (date_key x) = false) by (destruct x; try reflexivity; discriminate).
  pose proof (rmap_raises date_key l x Hx Hr) as H. rewrite Hk in H. discriminate.
Qed.

Lemma date_key_sortable ep :
  sortable ep = true -> exists s, date_key ep = Ok (JStr s).
Proof.
  unfold sortable, date_key, py_get, field.
  destruct ep; simpl; try discriminate.
  destruct (dict_get fields "date") as [[]|]; simpl; try discriminate;
    intros _; eexists; reflexivity.
Qed.

(** Records whose dates are strings, or missing, are sorted without an
    exception, into a permutation of the input. *)
Lemma sorted_reverse_sortable l :
  Forall (fun ep => sortable ep = true) l ->
  exists s, sorted_reverse date_key (JArr l) = Ok s /\ Permutation l s.
Proof.
  intros Hl.
  assert (Hkeys : exists keys, rmap date_key l = Ok keys
                    /\ Forall (fun k => is_str k = true) keys).
  { induction Hl as [|ep l Hep _ (keys & IH & Hs)]; simpl.
    - exists []. split; [reflexivity|constructor].
    - destruct (date_key_sortable ep Hep) as (s & ->). simpl. rewrite IH. simpl.
      eexists; split; [reflexivity|]. now constructor. }
  destruct Hkeys as (keys & Hk & Hs).
  assert (Hc : str_keyed (combine keys l)).
  { clear Hk Hl. revert l. induction Hs as [|k keys Hk _ IH]; intros [|x l];
      simpl; try constructor; auto. apply IH. }
  destruct (sort_desc_str _ Hc) as (r & Hr & _).
  assert (E : sorted_reverse date_key (JArr l) = Ok (map snd r)).
  { unfold sorted_reverse; simpl. rewrite Hk; simpl. now rewrite Hr. }
  eexists; split; [exact E|]. now apply sorted_reverse_perm in E.
Qed.

(** ** The order the sort gives *)

Lemma ltb_asym s t : String.ltb s t = true -> String.ltb t s = false.
Proof.
  unfold String.ltb. rewrite (String.compare_antisym t s).
  destruct (String.compare s t); simpl; congruence.
Qed.

Lemma ltb_irrefl s : String.ltb s s = false.
Proof.
  destruct (String.ltb s s) eqn:H; [|reflexivity].
  pose proof (ltb_asym s s H). congruence.
Qed.

Section SortOrder.
Context {A : Type}.
Variable date_of : A -> string.

Local Abbreviation keyed := (keyed_by date_of).
Local Abbreviation desc := (desc_by date_of).

Lemma insert_desc_sorted kx l r :
  keyed (kx :: l) -> Sorted desc l -> insert_desc kx l = Ok r ->
  Sorted desc r
  /\ (forall z, desc z kx -> HdRel desc z l -> HdRel desc z r).
Proof.
  revert r. induction l as [|ky l IH]; simpl; intros r Hk Hs Hr.
  - injection Hr as <-. split; [repeat constructor|].
    intros z Hz _. now constructor.
  - inversion Hk as [|? ? Hx Hk']; subst.
    inversion Hk' as [|? ? Hy Hk'']; subst.
    rewrite Hx, Hy in Hr. simpl in Hr.
    destruct (String.ltb (date_of (snd kx)) (date_of (snd ky))) eqn:Hlt.
    + destruct (insert_desc kx l) as [r'|e] eqn:Hins; simpl in Hr;
        [|discriminate].
      injection Hr as <-.
      inversion Hs as [|? ? Hs' Hhd]; subst.
      destruct (IH r') as (Hsorted & Hhead); auto.
      { constructor; assumption. }
      split.
      * constructor; [exact Hsorted|].
        apply Hhead; [|exact Hhd]. unfold desc. now apply ltb_asym.
      * intros z _ Hz. inversion Hz; subst. now constructor.
    + injection Hr as <-. split.
      * constructor; [exact Hs|]. constructor. exact Hlt.
      * intros z Hz _. now constructor.
Qed.

Lemma sort_desc_sorted l r :
  keyed l -> sort_desc l = Ok r -> Sorted desc r.
Proof.
  revert r. induction l as [|kx l IH]; simpl; intros r Hk Hr.
  - injection Hr as <-. constructor.
  - destruct (sort_desc l) as [r'|e] eqn:Hs; simpl in Hr; [|discriminate].
    inversion Hk as [|? ? Hx Hk']; subst.
    apply (insert_desc_sorted kx r' r); auto.
    constructor; [exact Hx|].
    eapply Permutation_Forall; [apply sort_desc_perm, Hs|exact Hk'].
Qed.

(** Stability: the elements of one date keep the order they came in. *)
Lemma insert_desc_stable kx l r d :
  keyed (kx :: l) -> insert_desc kx l = Ok r ->
  filter (fun y => String.eqb (date_of (snd y)) d) r
  = filter (fun y => String.eqb (date_of (snd y)) d) (kx :: l).
Proof.
  revert r. induction l as [|ky l IH]; simpl; intros r Hk Hr.
  - injection Hr as <-. reflexivity.
  - inversion Hk as [|? ? Hx Hk']; subst.
    inversion Hk' as [|? ? Hy Hk'']; subst.
    rewrite Hx, Hy in Hr. simpl in Hr.
    destruct (String.ltb (date_of (snd kx)) (date_of (snd ky))) eqn:Hlt.
    + destruct (insert_desc kx l) as [r'|e] eqn:Hins; simpl in Hr;
        [|discriminate].
      injection Hr as <-. simpl.
      rewrite (IH r') by (try reflexivity; now constructor). simpl.
      destruct (String.eqb (date_of (snd kx)) d) eqn:Ex;
        destruct (String.eqb (date_of (snd ky)) d) eqn:Ey; try reflexivity.
      apply String.eqb_eq in Ex, Ey. rewrite Ex, Ey, ltb_irrefl in Hlt.
      discriminate.
    + injection Hr as <-. reflexivity.
Qed.

Lemma sort_desc_stable l r d :
  keyed l -> sort_desc l = Ok r ->
  filter (fun y => String.eqb (date_of (snd y)) d) r
  = filter (fun y => String.eqb (date_of (snd y)) d) l.
Proof.
  revert r. induction l as [|kx l IH]; simpl; intros r Hk Hr.
  - injection Hr as <-. reflexivity.
  - destruct (sort_desc l) as [r'|e] eqn:Hs; simpl in Hr; [|discriminate].
    inversion Hk as [|? ? Hx Hk']; subst.
    rewrite (insert_desc_stable kx r' r d); auto.
    + simpl. now rewrite (IH r').
    + constructor; [exact Hx|].
      eapply Permutation_Forall; [apply sort_desc_perm, Hs|exact Hk'].
Qed.
End SortOrder.

Lemma date_key_date_str ep :
  sortable ep = true -> date_key ep = Ok (JStr (date_str ep)).
Proof.
  unfold sortable, date_key, py_get, date_str, field.
  destruct ep; simpl; try discriminate.
  destruct (dict_get fields "date") as [[]|]; simpl; try discriminate;
    reflexivity.
Qed.

Lemma Sorted_map_snd {A} (R : A -> A -> Prop) (r : list (json * A)) :
  Sorted (fun a b => R (snd a) (snd b)) r -> Sorted R (map snd r).
Proof.
  induction 1 as [|a r _ IH Hhd]; simpl; constructor; [exact IH|].
  destruct Hhd; simpl; constructor; assumption.
Qed.

Lemma filter_map_snd {A} (f : A -> bool) (r : list (json * A)) :
  filter f (map snd r) = map snd (filter (fun y => f (snd y)) r).
Proof.
  induction r as [|a r IH]; simpl; [reflexivity|].
  destruct (f (snd a)); simpl; now rewrite IH.
Qed.

(** The sort of records whose dates are strings, or missing: the result is
    in descending order of the date strings, and records with the same date
    string keep the order of the input. *)
Lemma sorted_reverse_order l s :
  Forall (fun ep => sortable ep = true) l ->
  sorted_reverse date_key (JArr l) = Ok s ->
  Sorted not_before s
  /\ forall d, filter (fun ep => String.eqb (date_str ep) d) s
               = filter (fun ep => String.eqb (date_str ep) d) l.
Proof.
  intros Hl Hs. unfold sorted_reverse in Hs. simpl in Hs.
  rewrite (rmap_ok date_key (fun ep => JStr (date_str ep))) in Hs.
  2:{ eapply Forall_impl; [|exact Hl]. apply date_key_date_str. }
  simpl in Hs.
  destruct (sort_desc (combine (map (fun ep => JStr (date_str ep)) l) l))
    as [r|e] eqn:Hr; simpl in Hs; [|discriminate].
  injection Hs as <-.
  assert (Hk : Forall (fun kx : json * json => fst kx = JStr (date_str (snd kx)))
                 (combine (map (fun ep => JStr (date_str ep)) l) l)).
  { clear. induction l; simpl; constructor; auto. }
  split.
  - apply Sorted_map_snd. exact (sort_desc_sorted date_str _ _ Hk Hr).
  - intros d.
    rewrite (filter_map_snd (fun ep => String.eqb (date_str ep) d)).
    rewrite (sort_desc_stable date_str _ _ d Hk Hr).
    rewrite <- (filter_map_snd (fun ep => String.eqb (date_str ep) d)).
    f_equal.
    apply snd_combine. now rewrite length_map.
Qed.

(** ** The loop over the episodes *)

Ltac run :=
  unfold bind, lift, ret, raise, print, os_path_exists, get_file_size,
    os_path_getsize, strftime_now, write_file; simpl.

(** What one turn of the loop does, by cases on the record. *)
Lemma episode_item_cases env st ep :
  match field ep "filename" with
  | Some (JStr f) =>
      match stat env (posix_join EPISODES_DIR f) with
      | None =>
          episode_item ep env st
          = (with_line st (warning_line (posix_join EPISODES_DIR f)), Ok None)
      | Some n =>
          match field ep "title" with
          | Some t =>
              episode_item ep env st
              = (mkSt (S (clock_reads st)) (stdout st) (written st),
                 Ok (Some (item_at env (clock_reads st) ep f t n)))
          | None => episode_item ep env st = (st, Raise (KeyError "title"))
          end
      end
  | Some _ => episode_item ep env st = (st, Raise TypeError)
  | None => exists e, episode_item ep env st = (st, Raise e)
  end.
Proof.
  unfold episode_item, field, with_line.
  destruct ep as [| | | |l|d]; run; try (eexists; reflexivity).
  destruct (dict_get d "filename") as [[| | |f| |]|] eqn:Hf; run;
    try reflexivity; try (eexists; reflexivity).
  destruct (stat env (posix_join EPISODES_DIR f)) as [n|] eqn:Hs; run;
    [|reflexivity].
  destruct (dict_get d "title") as [t|] eqn:Ht; run; [|reflexivity].
  unfold duration_children, generate_guid, item_at, field_or, duration_of,
    md5_hex, field; simpl.
  rewrite Hf, Hs; simpl.
  destruct (dict_get d "duration") as [v|] eqn:Hd; simpl.
  - destruct (truthy v); simpl; reflexivity.
  - reflexivity.
Qed.

(** A record that is not passable makes its turn raise. *)
Lemma episode_item_raises env st ep :
  passable env ep = false ->
  exists e, episode_item ep env st = (st, Raise e).
Proof.
  intros Hp. pose proof (episode_item_cases env st ep) as H.
  unfold passable, audio_path, path_exists in Hp.
  destruct (field ep "filename") as [[| | |f| |]|]; try (eexists; exact H);
    try exact H.
  destruct (stat env (posix_join EPISODES_DIR f)) as [n|]; [|discriminate].
  destruct (field ep "title"); [discriminate|].
  eexists; exact H.
Qed.

Lemma item_for_found env k ep f t n :
  field ep "filename" = Some (JStr f) ->
  field ep "title" = Some t ->
  stat env (posix_join EPISODES_DIR f) = Some n ->
  item_for env k ep = Ok (Some (item_at env k ep f t n)).
Proof.
  intros Hf Ht Hs. unfold item_for.
  pose proof (episode_item_cases env (mkSt k [] []) ep) as H.
  rewrite Hf, Hs, Ht in H. now rewrite H.
Qed.

(** The turn on a record whose audio file is missing. *)
Lemma episode_item_missing env st ep p :
  audio_path ep = Some p -> path_exists env p = false ->
  episode_item ep env st = (with_line st (warning_line p), Ok None).
Proof.
  intros Hp Hmiss. pose proof (episode_item_cases env st ep) as H.
  unfold audio_path in Hp. unfold path_exists in Hmiss.
  destruct (field ep "filename") as [[| | |f| |]|]; try discriminate.
  injection Hp as <-.
  destruct (stat env (posix_join EPISODES_DIR f)); [discriminate|exact H].
Qed.

(** A turn that does not raise either skips the record, with its warning,
    or emits its item, after one reading of the clock. *)
Lemma episode_item_passes env st ep :
  passable env ep = true ->
  (audio_missing env ep = true /\ audio_exists env ep = false /\
   exists line, warning_of ep line /\
     episode_item ep env st = (with_line st line, Ok None))
  \/
  (audio_exists env ep = true /\ audio_missing env ep = false /\
   exists item, item_for env (clock_reads st) ep = Ok (Some item) /\
     episode_item ep env st
     = (mkSt (S (clock_reads st)) (stdout st) (written st), Ok (Some item))).
Proof.
  intros Hp. pose proof (episode_item_cases env st ep) as H.
  unfold passable, audio_missing, audio_exists, warning_of in *.
  destruct (audio_path ep) as [p|] eqn:Ha; [|discriminate].
  destruct (path_exists env p) eqn:Hs.
  - right. repeat split.
    destruct (field ep "title") as [t|] eqn:Ht; [|discriminate].
    unfold audio_path in Ha.
    destruct (field ep "filename") as [[| | |f| |]|] eqn:Hf; try discriminate.
    injection Ha as <-. unfold path_exists in Hs.
    destruct (stat env (posix_join EPISODES_DIR f)) as [n|] eqn:Hn;
      [|discriminate].
    eexists; split; [|exact H]. now apply item_for_found.
  - left. repeat split. exists (warning_line p).
    split; [now exists p|now apply episode_item_missing].
Qed.

(** The loop on records that all pass: one warning for each record whose
    audio file is missing, one item for each record whose audio file
    exists, both in the order of the records, and nothing written. *)
Lemma episode_items_pass env eps :
  Forall (fun ep => passable env ep = true) eps ->
  forall st, exists items lines,
    episode_items eps env st
    = (mkSt (clock_reads st + List.length items) (stdout st ++ lines)
            (written st), Ok items)
    /\ Forall2 (item_of env) (filter (audio_exists env) eps) items
    /\ Forall2 warning_of (filter (audio_missing env) eps) lines.
Proof.
  induction 1 as [|ep eps Hep _ IH]; intros st.
  - exists [], []. simpl. unfold ret. rewrite Nat.add_0_r, app_nil_r.
    destruct st; repeat split; constructor.
  - destruct (episode_item_passes env st ep Hep)
      as [(Hm & He & line & Hw & Hrun)|(He & Hm & item & Hi & Hrun)].
    + destruct (IH (with_line st line))
        as (items & lines & Hrest & Hitems & Hlines).
      exists items, (line :: lines). simpl.
      unfold bind at 1. rewrite Hrun. unfold bind at 1. rewrite Hrest.
      unfold with_line. simpl in *. rewrite <- app_assoc. simpl.
      rewrite He, Hm. repeat split; [exact Hitems|now constructor].
    + destruct (IH (mkSt (S (clock_reads st)) (stdout st) (written st)))
        as (items & lines & Hrest & Hitems & Hlines).
      exists (item :: items), lines. simpl.
      unfold bind at 1. rewrite Hrun. unfold bind at 1. rewrite Hrest.
      simpl in *. rewrite He, Hm, Nat.add_succ_r.
      repeat split; [|exact Hlines].
      constructor; [now exists (clock_reads st)|exact Hitems].
Qed.

(** The loop writes no file. *)
Lemma episode_items_written env eps :
  forall st, written (fst (episode_items eps env st)) = written st.
Proof.
  induction eps as [|ep eps IH]; intros st; [reflexivity|].
  simpl. unfold bind at 1.
  destruct (passable env ep) eqn:Hp.
  - destruct (episode_item_passes env st ep Hp)
      as [(_ & _ & line & _ & ->)|(_ & _ & item & _ & ->)];
      unfold bind at 1;
      match goal with |- context [episode_items eps env ?s] =>
        specialize (IH s); destruct (episode_items eps env s) as [s' [r|e]]
      end; simpl in *; exact IH.
  - destruct (episode_item_raises env st ep Hp) as (e & ->). reflexivity.
Qed.

(** The loop raises when it holds a record that is not passable. *)
Lemma episode_items_raise env eps ep :
  In ep eps -> passable env ep = false ->
  forall st, is_ok (snd (episode_items eps env st)) = false.
Proof.
  induction eps as [|x eps IH]; simpl; [tauto|].
  intros Hin Hbad st. unfold bind at 1.
  destruct (passable env x) eqn:Hp.
  - assert (Hin' : In ep eps).
    { destruct Hin as [->|]; [congruence|assumption]. }
    destruct (episode_item_passes env st x Hp)
      as [(_ & _ & line & _ & ->)|(_ & _ & item & _ & ->)];
      unfold bind at 1;
      match goal with |- context [episode_items eps env ?s] =>
        specialize (IH Hin' Hbad s);
        destruct (episode_items eps env s) as [s' [r|e]]
      end; simpl in *; congruence.
  - destruct (episode_item_raises env st x Hp) as (e & ->). reflexivity.
Qed.

Lemma episode_items_ok_passable env eps st st' items :
  episode_items eps env st = (st', Ok items) ->
  Forall (fun ep => passable env ep = true) eps.
Proof.
  intros Hrun. apply Forall_forall. intros ep Hin.
  destruct (passable env ep) eqn:Hp; [reflexivity|].
  pose proof (episode_items_raise env eps ep Hin Hp st) as H.
  rewrite Hrun in H. discriminate.
Qed.

Lemma filter_perm {A} (f : A -> bool) (l l' : list A) :
  Permutation l l' -> Permutation (filter f l) (filter f l').
Proof.
  induction 1 as [|x l l' _ IH|x y l|l l' l'' _ IH1 _ IH2]; simpl.
  - constructor.
  - destruct (f x); [now constructor|exact IH].
  - destruct (f x), (f y); try apply Permutation_refl. apply perm_swap.
  - eapply perm_trans; eassumption.
Qed.

Lemma well_formed_sortable ep : well_formed ep = true -> sortable ep = true.
Proof.
  unfold well_formed, sortable. intros H.
  repeat (apply andb_prop in H; destruct H as [H ?]).
  apply andb_true_intro; split; assumption.
Qed.

Lemma well_formed_passable env ep :
  well_formed ep = true -> passable env ep = true.
Proof.
  unfold well_formed, passable, audio_path. intros H.
  repeat (apply andb_prop in H; destruct H as [H ?]).
  destruct (field ep "filename") as [[]|]; try discriminate.
  destruct (path_exists env _); [|reflexivity].
  destruct (field ep "title"); [reflexivity|discriminate].
Qed.

(** An item is an [item] element, and only a record whose audio file
    exists has one. *)
Lemma item_of_inv env ep item :
  item_of env ep item ->
  exists k f t n,
    field ep "filename" = Some (JStr f) /\ field ep "title" = Some t /\
    stat env (posix_join EPISODES_DIR f) = Some n /\
    item = item_at env k ep f t n.
Proof.
  intros (k & Hk). unfold item_for in Hk.
  pose proof (episode_item_cases env (mkSt k [] []) ep) as H.
  destruct (field ep "filename") as [[| | |f| |]|] eqn:Hf;
    try (rewrite H in Hk; discriminate);
    try (destruct H as (e & H); rewrite H in Hk; discriminate).
  destruct (stat env (posix_join EPISODES_DIR f)) as [n|] eqn:Hs;
    [|rewrite H in Hk; discriminate].
  destruct (field ep "title") as [t|] eqn:Ht;
    [|rewrite H in Hk; discriminate].
  rewrite H in Hk. simpl in Hk. injection Hk as <-.
  exists k, f, t, n. auto.
Qed.

Lemma item_of_exists env ep item :
  item_of env ep item -> audio_exists env ep = true.
Proof.
  intros H. destruct (item_of_inv _ _ _ H) as (k & f & t & n & Hf & _ & Hs & _).
  unfold audio_exists, audio_path, path_exists. now rewrite Hf, Hs.
Qed.

Lemma item_of_tag env ep item : item_of env ep item -> tag_of item = "item".
Proof.
  intros H. destruct (item_of_inv _ _ _ H) as (k & f & t & n & _ & _ & _ & ->).
  reflexivity.
Qed.

Lemma findall_items items :
  Forall (fun i => tag_of i = "item") items ->
  filter (fun c => String.eqb (tag_of c) "item") items = items.
Proof.
  induction 1 as [|i items Hi _ IH]; simpl; [reflexivity|].
  rewrite Hi. simpl. now rewrite IH.
Qed.

(** The items of the feed are the items the loop appended. *)
Lemma feed_items_rss items :
  Forall (fun i => tag_of i = "item") items ->
  feed_items (rss_element items) = items.
Proof.
  intros H. unfold feed_items, rss_element, findall. simpl.
  rewrite app_nil_r. now apply findall_items.
Qed.

Lemma Forall2_tags env eps items :
  Forall2 (item_of env) eps items -> Forall (fun i => tag_of i = "item") items.
Proof.
  induction 1; constructor; eauto using item_of_tag.
Qed.

(** [generate_rss] on records that are all sortable and all pass. *)
Lemma build_rss_pass env st eps :
  Forall (fun ep => sortable ep = true) eps ->
  Forall (fun ep => passable env ep = true) eps ->
  exists sorted items lines,
    Permutation eps sorted
    /\ build_rss (JArr eps) env st
       = (mkSt (clock_reads st + List.length items) (stdout st ++ lines)
               (written st), Ok (rss_element items))
    /\ feed_items (rss_element items) = items
    /\ Forall2 (item_of env) (filter (audio_exists env) sorted) items
    /\ Forall2 warning_of (filter (audio_missing env) sorted) lines.
Proof.
  intros Hs Hp.
  destruct (sorted_reverse_sortable eps Hs) as (sorted & Hsort & Hperm).
  assert (Hp' : Forall (fun ep => passable env ep = true) sorted).
  { eapply Permutation_Forall; eassumption. }
  destruct (episode_items_pass env sorted Hp' st)
    as (items & lines & Hrun & Hitems & Hlines).
  exists sorted, items, lines. repeat split; try assumption.
  - unfold build_rss. unfold bind at 1, lift. rewrite Hsort.
    unfold bind. rewrite Hrun. reflexivity.
  - apply feed_items_rss. eapply Forall2_tags; eassumption.
Qed.

(** ** The guid *)

Lemma distinct_NoDup l : distinct l = true -> NoDup l.
Proof.
  induction l as [|x l IH]; simpl; [constructor|].
  intros H. apply andb_prop in H as [Hx Hl].
  constructor; [|now apply IH].
  intros Hin. apply negb_true_iff in Hx.
  assert (E : existsb (String.eqb x) l = true).
  { apply existsb_exists. exists x. split; [assumption|apply String.eqb_refl]. }
  congruence.
Qed.

Lemma NoDup_map_injective {A B} (f : A -> B) (l : list A) x y :
  NoDup (map f l) -> In x l -> In y l -> f x = f y -> x = y.
Proof.
  induction l as [|a l IH]; simpl; [tauto|].
  intros Hnd. inversion Hnd as [|? ? Hni Hnd']; subst.
  intros [->|Hx] [->|Hy] E; auto.
  - exfalso. apply Hni. rewrite E. now apply in_map.
  - exfalso. apply Hni. rewrite <- E. now apply in_map.
Qed.

Lemma generate_guid_filename ep f :
  field ep "filename" = Some (JStr f) -> generate_guid ep = Ok (md5_hex f).
Proof.
  unfold field, generate_guid, py_getitem.
  destruct ep; try discriminate. intros ->. reflexivity.
Qed.

Lemma corpus_digests_distinct : NoDup (map md5_hex corpus).
Proof. apply distinct_NoDup. vm_compute. reflexivity. Qed.

(** C3.  [generate_guid] depends on the filename of the record alone: two
    records with the same filename get the same guid, which is the MD5 hex
    digest of the bytes of the filename; and on the file names of [corpus]
    records with different filenames get different guids. *)
Theorem generate_guid_pure_in_filename :
  (forall e1 e2 f,
      field e1 "filename" = Some (JStr f) ->
      field e2 "filename" = Some (JStr f) ->
      generate_guid e1 = Ok (MD5.hexdigest (encode f))
      /\ generate_guid e2 = generate_guid e1)
  /\ (forall e1 e2 f1 f2,
      field e1 "filename" = Some (JStr f1) ->
      field e2 "filename" = Some (JStr f2) ->
      In f1 corpus -> In f2 corpus -> f1 <> f2 ->
      generate_guid e1 <> generate_guid e2).
Proof.
  split.
  - intros e1 e2 f H1 H2.
    rewrite (generate_guid_filename e1 f H1), (generate_guid_filename e2 f H2).
    split; reflexivity.
  - intros e1 e2 f1 f2 H1 H2 Hin1 Hin2 Hne.
    rewrite (generate_guid_filename e1 f1 H1), (generate_guid_filename e2 f2 H2).
    intros [= E]. apply Hne.
    exact (NoDup_map_injective md5_hex corpus f1 f2
             corpus_digests_distinct Hin1 Hin2 E).
Qed.

Lemma generate_guid_pure_in_filename_witness :
  (generate_guid ep_jan1 = Ok (MD5.hexdigest (encode "ep1.mp3"))
   /\ generate_guid (JObj [("title", JNull); ("filename", JStr "ep1.mp3")])
      = generate_guid ep_jan1)
  /\ generate_guid ep_jan1 <> generate_guid ep_jan2.
Proof.
  split.
  - apply (proj1 generate_guid_pure_in_filename
             ep_jan1 (JObj [("title", JNull); ("filename", JStr "ep1.mp3")])
             "ep1.mp3"); reflexivity.
  - apply (proj2 generate_guid_pure_in_filename
             ep_jan1 ep_jan2 "ep1.mp3" "ep2.mp3");
      try reflexivity; simpl; auto; discriminate.
Defined.

(** RFC 1321, appendix A.5, and a file name of the scenarios. *)
Example md5_empty : md5_hex "" = "d41d8cd98f00b204e9800998ecf8427e".
Proof. vm_compute. reflexivity. Qed.

Example md5_abc : md5_hex "abc" = "900150983cd24fb0d6963f7d28e17f72".
Proof. vm_compute. reflexivity. Qed.

Example md5_two_blocks :
  md5_hex "12345678901234567890123456789012345678901234567890123456789012345678901234567890"
  = "57edf4a22be3c955ac49da2e2107b67a".
Proof. vm_compute. reflexivity. Qed.

Example md5_ep1 : generate_guid ep_jan1 = Ok "0286894d7351cbd9747e5a70bf589a85".
Proof. vm_compute. reflexivity. Qed.

(** ** The children of an item *)

Lemma item_at_pubDate env k ep f t n :
  findtext "pubDate" (item_at env k ep f t n)
  = Some (field_or ep "date" (JStr (utcnow env k))).
Proof.
  unfold findtext, findall, item_at, item_element, duration_of. simpl.
  destruct (field ep "duration") as [v|]; [destruct (truthy v)|]; reflexivity.
Qed.

Lemma item_at_duration env k ep f t n :
  findall "itunes:duration" (item_at env k ep f t n) = duration_of ep.
Proof.
  unfold findall, item_at, item_element, duration_of. simpl.
  destruct (field ep "duration") as [v|]; [destruct (truthy v)|]; reflexivity.
Qed.

Lemma item_of_pubDate env ep item d :
  item_of env ep item -> field ep "date" = Some d ->
  findtext "pubDate" item = Some d.
Proof.
  intros H Hd. destruct (item_of_inv _ _ _ H) as (k & f & t & n & _ & _ & _ & ->).
  rewrite item_at_pubDate. unfold field_or. now rewrite Hd.
Qed.

Lemma item_of_pubDate_now env ep item :
  item_of env ep item -> field ep "date" = None ->
  exists k, findtext "pubDate" item = Some (JStr (utcnow env k)).
Proof.
  intros H Hd. destruct (item_of_inv _ _ _ H) as (k & f & t & n & _ & _ & _ & ->).
  exists k. rewrite item_at_pubDate. unfold field_or. now rewrite Hd.
Qed.

(** ** The order of the items *)

(** C1, as the specification has it, does not hold: the string
    ["Wed, 01 Jan ..."] is greater than ["Thu, 02 Jan ..."], so the item of
    Jan 1 comes before the item of Jan 2. *)
Lemma jan2_first_counterexample :
  exists st rss,
    build_rss (JArr [ep_jan1; ep_jan2; ep_undated]) scenario_env initial
    = (st, Ok rss)
    /\ map (findtext "pubDate") (feed_items rss)
       = [Some (JStr jan1); Some (JStr jan2); Some (JStr a_time)]
    /\ ~ Forall2 (item_of scenario_env) [ep_jan2; ep_jan1; ep_undated]
                 (feed_items rss).
Proof.
  eexists. eexists. split; [vm_compute; reflexivity|].
  split; [vm_compute; reflexivity|].
  intros H.
  match type of H with Forall2 _ _ ?items =>
    let v := eval vm_compute in items in change items with v in H
  end.
  inversion H as [|ep item eps items Hitem _]; subst.
  pose proof (item_of_pubDate _ _ _ (JStr jan2) Hitem eq_refl) as Hd.
  vm_compute in Hd. discriminate.
Qed.

Lemma sorted_three r1 r2 r3 l :
  is_mapping r1 = true -> is_mapping r2 = true -> is_mapping r3 = true ->
  field r1 "date" = Some (JStr jan1) ->
  field r2 "date" = Some (JStr jan2) ->
  field r3 "date" = None ->
  In l (orders3 r1 r2 r3) ->
  sorted_reverse date_key (JArr l) = Ok [r1; r2; r3].
Proof.
  destruct r1 as [| | | | |d1]; try discriminate.
  destruct r2 as [| | | | |d2]; try discriminate.
  destruct r3 as [| | | | |d3]; try discriminate.
  simpl. intros _ _ _ H1 H2 H3 Hl.
  repeat (destruct Hl as [<-|Hl]; [
    unfold sorted_reverse, date_key; simpl; rewrite ?H1, ?H2, ?H3;
    reflexivity |]).
  destruct Hl.
Qed.

(** C1, amended.  The records are sorted by their date strings, greatest
    first, a record with no date counting as [""], and records with the
    same date string keep their order.  So three records dated
    ["Wed, 01 Jan 2025 00:00:00 +0000"], ["Thu, 02 Jan 2025 00:00:00 +0000"]
    and not dated, with their audio files there, in whatever order the
    metadata file lists them, give the items in the order Jan 1, Jan 2,
    undated. *)
Theorem three_records_in_date_string_order :
  (forall l s,
      Forall (fun ep => sortable ep = true) l ->
      sorted_reverse date_key (JArr l) = Ok s ->
      Permutation l s /\ Sorted not_before s
      /\ forall d, filter (fun ep => String.eqb (date_str ep) d) s
                   = filter (fun ep => String.eqb (date_str ep) d) l)
  /\ (forall env st r1 r2 r3 l,
      well_formed r1 = true -> well_formed r2 = true ->
      well_formed r3 = true ->
      field r1 "date" = Some (JStr jan1) ->
      field r2 "date" = Some (JStr jan2) ->
      field r3 "date" = None ->
      audio_exists env r1 = true -> audio_exists env r2 = true ->
      audio_exists env r3 = true ->
      In l (orders3 r1 r2 r3) ->
      sorted_reverse date_key (JArr l) = Ok [r1; r2; r3]
      /\ py_lt (JStr jan2) (JStr jan1) = Ok true
      /\ py_lt (JStr "") (JStr jan2) = Ok true
      /\ exists st' rss k,
           build_rss (JArr l) env st = (st', Ok rss)
           /\ Forall2 (item_of env) [r1; r2; r3] (feed_items rss)
           /\ map (findtext "pubDate") (feed_items rss)
              = [Some (JStr jan1); Some (JStr jan2);
                 Some (JStr (utcnow env k))]).
Proof.
  split.
  { intros l s Hl Hs. split; [now apply sorted_reverse_perm in Hs|].
    now apply sorted_reverse_order. }
  intros env st r1 r2 r3 l W1 W2 W3 D1 D2 D3 E1 E2 E3 Hl.
  assert (Hsort : sorted_reverse date_key (JArr l) = Ok [r1; r2; r3]).
  { apply sorted_three; auto.
    - unfold well_formed in W1. destruct (is_mapping r1); [reflexivity|discriminate].
    - unfold well_formed in W2. destruct (is_mapping r2); [reflexivity|discriminate].
    - unfold well_formed in W3. destruct (is_mapping r3); [reflexivity|discriminate]. }
  split; [exact Hsort|]. split; [reflexivity|]. split; [reflexivity|].
  assert (Hp : Forall (fun ep => passable env ep = true) [r1; r2; r3]).
  { repeat constructor; now apply well_formed_passable. }
  destruct (episode_items_pass env [r1; r2; r3] Hp st)
    as (items & lines & Hrun & Hitems & _).
  simpl in Hitems. rewrite E1, E2, E3 in Hitems.
  pose proof (Forall2_tags _ _ _ Hitems) as Htags.
  inversion Hitems as [|? i1 ? ? H1 Hitems']; subst.
  inversion Hitems' as [|? i2 ? ? H2 Hitems'']; subst.
  inversion Hitems'' as [|? i3 ? ? H3 Hnil]; subst.
  inversion Hnil; subst.
  destruct (item_of_pubDate_now _ _ _ H3 D3) as (k & Hk).
  eexists. exists (rss_element [i1; i2; i3]), k.
  split; [|split].
  - unfold build_rss. unfold bind at 1, lift. rewrite Hsort.
    unfold bind. rewrite Hrun. reflexivity.
  - rewrite feed_items_rss by assumption. exact Hitems.
  - rewrite feed_items_rss by assumption. simpl.
    rewrite (item_of_pubDate _ _ _ _ H1 D1), (item_of_pubDate _ _ _ _ H2 D2), Hk.
    reflexivity.
Qed.

Lemma three_records_in_date_string_order_witness :
  exists st' rss k,
    build_rss (JArr [ep_undated; ep_jan2; ep_jan1]) scenario_env initial
    = (st', Ok rss)
    /\ Forall2 (item_of scenario_env) [ep_jan1; ep_jan2; ep_undated]
               (feed_items rss)
    /\ map (findtext "pubDate") (feed_items rss)
       = [Some (JStr jan1); Some (JStr jan2);
          Some (JStr (utcnow scenario_env k))].
Proof.
  apply (proj2 three_records_in_date_string_order scenario_env initial
           ep_jan1 ep_jan2 ep_undated [ep_undated; ep_jan2; ep_jan1]);
    try reflexivity.
  simpl. tauto.
Defined.

(** ** Items and audio files *)

Lemma generate_rss_build toprettyxml j env st st' rss :
  build_rss j env st = (st', Ok rss) ->
  generate_rss toprettyxml j env st = (st', toprettyxml rss).
Proof.
  intros H. unfold generate_rss, bind, lift. now rewrite H.
Qed.

Lemma generate_rss_raise toprettyxml j env st :
  is_ok (snd (build_rss j env st)) = false ->
  is_ok (snd (generate_rss toprettyxml j env st)) = false.
Proof.
  unfold generate_rss, bind.
  destruct (build_rss j env st) as [st' [rss|e]]; simpl; [discriminate|auto].
Qed.

Lemma Forall2_in_l {A B} (R : A -> B -> Prop) l l' y :
  Forall2 R l l' -> In y l' -> exists x, In x l /\ R x y.
Proof.
  induction 1 as [|a b l l' Hab _ IH]; simpl; [tauto|].
  intros [<-|Hin].
  - exists a. auto.
  - destruct (IH Hin) as (x & Hx & Hr). exists x. auto.
Qed.

(** C2.  For a list of well-formed records, [generate_rss] builds a feed
    with as many [item] elements as there are records whose audio file
    exists; every item is the item of such a record; and the records whose
    file is missing raise no exception: the tree is built and handed to the
    serialiser. *)
Theorem item_count_is_existing_audio_count
    (toprettyxml : Element -> Result string) env st eps :
  Forall (fun ep => well_formed ep = true) eps ->
  exists st' rss,
    build_rss (JArr eps) env st = (st', Ok rss)
    /\ generate_rss toprettyxml (JArr eps) env st = (st', toprettyxml rss)
    /\ List.length (feed_items rss)
       = List.length (filter (audio_exists env) eps)
    /\ Forall (fun item =>
                 exists ep, In ep eps /\ audio_exists env ep = true
                            /\ item_of env ep item)
              (feed_items rss).
Proof.
  intros Hwf.
  assert (Hs : Forall (fun ep => sortable ep = true) eps).
  { eapply Forall_impl; [|exact Hwf]. apply well_formed_sortable. }
  assert (Hp : Forall (fun ep => passable env ep = true) eps).
  { eapply Forall_impl; [|exact Hwf]. intros ep. apply well_formed_passable. }
  destruct (build_rss_pass env st eps Hs Hp)
    as (sorted & items & lines & Hperm & Hrun & Hfeed & Hitems & _).
  eexists. exists (rss_element items).
  split; [exact Hrun|]. split; [now apply generate_rss_build|].
  rewrite Hfeed. split.
  - rewrite <- (Forall2_length Hitems).
    apply Permutation_length, Permutation_sym, filter_perm, Hperm.
  - apply Forall_forall. intros item Hin.
    destruct (Forall2_in_l _ _ _ _ Hitems Hin) as (ep & Hep & Hof).
    apply filter_In in Hep as [Hep Hex].
    exists ep. repeat split; try assumption.
    eapply Permutation_in; [apply Permutation_sym, Hperm|exact Hep].
Qed.

Lemma item_count_is_existing_audio_count_witness :
  exists st' rss,
    build_rss (JArr [ep_jan1; ep_jan2; ep_undated])
              (mkEnv Absent (audio_but "episodes/ep2.mp3") (fun _ => a_time))
              initial = (st', Ok rss)
    /\ generate_rss toy_xml (JArr [ep_jan1; ep_jan2; ep_undated])
              (mkEnv Absent (audio_but "episodes/ep2.mp3") (fun _ => a_time))
              initial = (st', toy_xml rss)
    /\ List.length (feed_items rss) = 2
    /\ Forall (fun item =>
                 exists ep, In ep [ep_jan1; ep_jan2; ep_undated]
                   /\ audio_exists
                        (mkEnv Absent (audio_but "episodes/ep2.mp3")
                               (fun _ => a_time)) ep = true
                   /\ item_of (mkEnv Absent (audio_but "episodes/ep2.mp3")
                                     (fun _ => a_time)) ep item)
              (feed_items rss).
Proof.
  apply (item_count_is_existing_audio_count toy_xml
           (mkEnv Absent (audio_but "episodes/ep2.mp3") (fun _ => a_time))
           initial [ep_jan1; ep_jan2; ep_undated]).
  repeat constructor.
Defined.

Lemma missing_has_no_item env ep item :
  audio_missing env ep = true -> ~ item_of env ep item.
Proof.
  intros Hm Hof. apply item_of_exists in Hof.
  unfold audio_missing, audio_exists in *.
  destruct (audio_path ep); [|discriminate].
  destruct (path_exists env s); discriminate.
Qed.

Lemma bind_ret {A} (m : M A) env st : bind m ret env st = m env st.
Proof. unfold bind, ret. destruct (m env st) as [st' [a|e]]; reflexivity. Qed.

(** C7.  A turn of the loop on a record whose audio file is missing prints
    the one line [WARNING: <path> not found, skipping], gives no item and
    raises nothing, and the loop goes on with the records that remain.  So
    when no record raises (each is a mapping with a string for a filename,
    a string or nothing for a date, and a title if its audio file exists),
    the lines [generate_rss] prints are the warnings of the records whose
    audio file is missing, one line for each, in the order of the sorted
    records; these records have no item, every other record has its item,
    and the tree is built. *)
Theorem missing_audio_is_warned_and_skipped
    (toprettyxml : Element -> Result string) :
  (forall env st ep p rest,
      audio_path ep = Some p -> path_exists env p = false ->
      episode_item ep env st = (with_line st (warning_line p), Ok None)
      /\ episode_items (ep :: rest) env st
         = episode_items rest env (with_line st (warning_line p)))
  /\ (forall env st eps,
      Forall (fun ep => sortable ep = true) eps ->
      Forall (fun ep => passable env ep = true) eps ->
      exists sorted st' rss lines,
        Permutation eps sorted
        /\ generate_rss toprettyxml (JArr eps) env st = (st', toprettyxml rss)
        /\ stdout st' = stdout st ++ lines
        /\ Forall2 warning_of (filter (audio_missing env) sorted) lines
        /\ List.length lines = List.length (filter (audio_missing env) eps)
        /\ Forall2 (item_of env) (filter (audio_exists env) sorted)
                   (feed_items rss)
        /\ (forall ep item,
              audio_missing env ep = true -> ~ item_of env ep item)).
Proof.
  split.
  - intros env st ep p rest Hp Hmiss.
    pose proof (episode_item_missing env st ep p Hp Hmiss) as Hturn.
    split; [exact Hturn|].
    simpl. unfold bind at 1. rewrite Hturn. apply bind_ret.
  - intros env st eps Hs Hp.
    destruct (build_rss_pass env st eps Hs Hp)
      as (sorted & items & lines & Hperm & Hrun & Hfeed & Hitems & Hlines).
    exists sorted. eexists. exists (rss_element items), lines.
    split; [exact Hperm|]. split; [apply generate_rss_build, Hrun|].
    split; [reflexivity|]. split; [exact Hlines|]. split.
    + rewrite <- (Forall2_length Hlines).
      apply Permutation_length, Permutation_sym, filter_perm, Hperm.
    + split; [now rewrite Hfeed|]. intros ep item. apply missing_has_no_item.
Qed.

Lemma missing_audio_is_warned_and_skipped_witness :
  (episode_item ep_untitled
     (mkEnv Absent (audio_but "episodes/ep4.mp3") (fun _ => a_time)) initial
   = (mkSt 0 ["WARNING: episodes/ep4.mp3 not found, skipping"] [], Ok None)
   /\ episode_items [ep_untitled; ep_undated]
        (mkEnv Absent (audio_but "episodes/ep4.mp3") (fun _ => a_time)) initial
      = episode_items [ep_undated]
          (mkEnv Absent (audio_but "episodes/ep4.mp3") (fun _ => a_time))
          (mkSt 0 ["WARNING: episodes/ep4.mp3 not found, skipping"] []))
  /\ exists sorted st' rss lines,
    Permutation [ep_jan2; ep_untitled; ep_undated] sorted
    /\ generate_rss toy_xml (JArr [ep_jan2; ep_untitled; ep_undated])
         (mkEnv Absent (audio_but "episodes/ep4.mp3") (fun _ => a_time))
         initial = (st', toy_xml rss)
    /\ stdout st' = stdout initial ++ lines
    /\ Forall2 warning_of
         (filter (audio_missing
                    (mkEnv Absent (audio_but "episodes/ep4.mp3")
                           (fun _ => a_time))) sorted) lines
    /\ List.length lines = 1
    /\ Forall2 (item_of (mkEnv Absent (audio_but "episodes/ep4.mp3")
                               (fun _ => a_time)))
         (filter (audio_exists
                    (mkEnv Absent (audio_but "episodes/ep4.mp3")
                           (fun _ => a_time))) sorted)
         (feed_items rss)
    /\ (forall ep item,
          audio_missing (mkEnv Absent (audio_but "episodes/ep4.mp3")
                               (fun _ => a_time)) ep = true ->
          ~ item_of (mkEnv Absent (audio_but "episodes/ep4.mp3")
                           (fun _ => a_time)) ep item).
Proof.
  split.
  - apply (proj1 (missing_audio_is_warned_and_skipped toy_xml)
             (mkEnv Absent (audio_but "episodes/ep4.mp3") (fun _ => a_time))
             initial ep_untitled "episodes/ep4.mp3" [ep_undated]);
      reflexivity.
  - apply (proj2 (missing_audio_is_warned_and_skipped toy_xml)
             (mkEnv Absent (audio_but "episodes/ep4.mp3") (fun _ => a_time))
             initial [ep_jan2; ep_untitled; ep_undated]);
      repeat constructor.
Defined.

Example missing_audio_warning_line :
  stdout (fst (generate_rss toy_xml (JArr [ep_jan2; ep_untitled; ep_undated])
                 (mkEnv Absent (audio_but "episodes/ep4.mp3")
                        (fun _ => a_time)) initial))
  = ["WARNING: episodes/ep4.mp3 not found, skipping"].
Proof. vm_compute. reflexivity. Qed.

(** ** Records that lack a field *)

Lemma no_filename_not_passable env ep :
  field ep "filename" = None -> passable env ep = false.
Proof. unfold passable, audio_path. now intros ->. Qed.

Lemma build_rss_raise env st eps ep :
  In ep eps -> passable env ep = false ->
  is_ok (snd (build_rss (JArr eps) env st)) = false.
Proof.
  intros Hin Hbad. unfold build_rss. unfold bind at 1, lift.
  destruct (sorted_reverse date_key (JArr eps)) as [s|e] eqn:Hs; [|reflexivity].
  apply sorted_reverse_perm in Hs.
  pose proof (episode_items_raise env s ep (Permutation_in _ Hs Hin) Hbad st) as H.
  unfold bind. destruct (episode_items s env st) as [st' [items|e]];
    [discriminate|reflexivity].
Qed.

Lemma untitled_missing_passable env ep :
  present_str (field ep "filename") = true ->
  (field ep "title" = None -> audio_missing env ep = true) ->
  passable env ep = true.
Proof.
  unfold passable, audio_missing, audio_path.
  destruct (field ep "filename") as [[| | |f| |]|]; try discriminate.
  intros _ H. destruct (path_exists env _); [|reflexivity].
  destruct (field ep "title"); [reflexivity|].
  specialize (H eq_refl). discriminate.
Qed.

(** C10.  A record whose audio file is missing is skipped before its title
    is read: when every record is a mapping with a string for a filename
    (and a string or nothing for a date), and the only records with no
    title are records whose audio file is missing, [generate_rss] raises
    nothing while it builds the tree and hands the tree to the serialiser.
    A record with no filename makes [generate_rss] raise, whatever files
    exist. *)
Theorem skipped_record_needs_no_title (toprettyxml : Element -> Result string) :
  (forall env st eps,
      Forall (fun ep => sortable ep = true) eps ->
      Forall (fun ep => present_str (field ep "filename") = true) eps ->
      (forall ep, In ep eps -> field ep "title" = None ->
                  audio_missing env ep = true) ->
      exists st' rss,
        build_rss (JArr eps) env st = (st', Ok rss)
        /\ generate_rss toprettyxml (JArr eps) env st = (st', toprettyxml rss))
  /\ (forall env st eps ep,
      In ep eps -> field ep "filename" = None ->
      is_ok (snd (build_rss (JArr eps) env st)) = false
      /\ is_ok (snd (generate_rss toprettyxml (JArr eps) env st)) = false).
Proof.
  split.
  - intros env st eps Hs Hf Ht.
    assert (Hp : Forall (fun ep => passable env ep = true) eps).
    { apply Forall_forall. intros ep Hin.
      apply untitled_missing_passable.
      - now apply (proj1 (Forall_forall _ _) Hf).
      - now apply Ht. }
    destruct (build_rss_pass env st eps Hs Hp)
      as (sorted & items & lines & _ & Hrun & _).
    eexists. exists (rss_element items).
    split; [exact Hrun|now apply generate_rss_build].
  - intros env st eps ep Hin Hf.
    assert (H : is_ok (snd (build_rss (JArr eps) env st)) = false).
    { eapply build_rss_raise; [exact Hin|now apply no_filename_not_passable]. }
    split; [exact H|now apply generate_rss_raise].
Qed.

Lemma skipped_record_needs_no_title_witness :
  (field ep_untitled "title" = None
   /\ exists st' rss,
       build_rss (JArr [ep_jan2; ep_untitled; ep_undated])
         (mkEnv Absent (audio_but "episodes/ep4.mp3") (fun _ => a_time))
         initial = (st', Ok rss)
       /\ generate_rss toy_xml (JArr [ep_jan2; ep_untitled; ep_undated])
         (mkEnv Absent (audio_but "episodes/ep4.mp3") (fun _ => a_time))
         initial = (st', toy_xml rss))
  /\ (is_ok (snd (build_rss (JArr [ep_jan1; ep_unnamed])
                    (mkEnv Absent (all_audio 1000) (fun _ => a_time))
                    initial)) = false
      /\ is_ok (snd (generate_rss toy_xml (JArr [ep_jan1; ep_unnamed])
                    (mkEnv Absent (all_audio 1000) (fun _ => a_time))
                    initial)) = false).
Proof.
  split; [split; [reflexivity|]|].
  - apply (proj1 (skipped_record_needs_no_title toy_xml)
             (mkEnv Absent (audio_but "episodes/ep4.mp3") (fun _ => a_time))
             initial [ep_jan2; ep_untitled; ep_undated]).
    + repeat constructor.
    + repeat constructor.
    + simpl. intros ep [<-|[<-|[<-|[]]]]; intros H;
        try discriminate H; reflexivity.
  - apply (proj2 (skipped_record_needs_no_title toy_xml)
             (mkEnv Absent (all_audio 1000) (fun _ => a_time))
             initial [ep_jan1; ep_unnamed] ep_unnamed).
    + simpl. auto.
    + reflexivity.
Defined.

(** A record with no title whose audio file exists raises [KeyError]. *)
Example untitled_with_audio_raises :
  snd (build_rss (JArr [ep_jan2; ep_untitled])
         (mkEnv Absent (all_audio 1000) (fun _ => a_time)) initial)
  = Raise (KeyError "title").
Proof. vm_compute. reflexivity. Qed.

Example unnamed_raises :
  snd (build_rss (JArr [ep_jan1; ep_unnamed])
         (mkEnv Absent (fun _ => None) (fun _ => a_time)) initial)
  = Raise (KeyError "filename").
Proof. vm_compute. reflexivity. Qed.

(** ** The duration *)

(** C8.  The item of a record has an [itunes:duration] child exactly when
    the record has a duration that is not empty: a record with no duration
    field, or with the empty string for one, gets an item with no such
    child at all, and a record with a duration [s] that is not empty gets
    the one child with text [s]. *)
Theorem duration_only_when_present env k ep item :
  item_for env k ep = Ok (Some item) ->
  ((field ep "duration" = None \/ field ep "duration" = Some (JStr "")) ->
     findall "itunes:duration" item = [])
  /\ (forall s, field ep "duration" = Some (JStr s) -> s <> "" ->
     findall "itunes:duration" item = [text_elem "itunes:duration" (JStr s)])
  /\ (findall "itunes:duration" item <> [] ->
     exists v, field ep "duration" = Some v /\ truthy v = true).
Proof.
  intros Hitem.
  assert (Hof : item_of env ep item) by (now exists k).
  destruct (item_of_inv _ _ _ Hof) as (k' & f & t & n & _ & _ & _ & ->).
  rewrite item_at_duration. unfold duration_of.
  split; [|split].
  - intros [-> | ->]; reflexivity.
  - intros s -> Hs. simpl. apply String.eqb_neq in Hs. now rewrite Hs.
  - destruct (field ep "duration") as [v|]; [|congruence].
    destruct (truthy v) eqn:Hv; [|congruence].
    intros _. now exists v.
Qed.

Lemma duration_only_when_present_witness :
  exists item,
    item_for scenario_env 0 ep_jan1 = Ok (Some item)
    /\ findall "itunes:duration" item = [].
Proof.
  eexists. split; [vm_compute; reflexivity|].
  apply (proj1 (duration_only_when_present scenario_env 0 ep_jan1 _ eq_refl)).
  left. reflexivity.
Defined.

Example duration_kept :
  option_map (findall "itunes:duration")
    (match item_for scenario_env 0
             (JObj [ ("filename", JStr "ep1.mp3"); ("title", JStr "Episode 1");
                     ("duration", JStr "12:34") ]) with
     | Ok o => o
     | Raise _ => None
     end)
  = Some [text_elem "itunes:duration" (JStr "12:34")].
Proof. vm_compute. reflexivity. Qed.

Example empty_duration_dropped :
  option_map (findall "itunes:duration")
    (match item_for scenario_env 0
             (JObj [ ("filename", JStr "ep1.mp3"); ("title", JStr "Episode 1");
                     ("duration", JStr "") ]) with
     | Ok o => o
     | Raise _ => None
     end)
  = Some [].
Proof. vm_compute. reflexivity. Qed.

(** ** main *)

Lemma main_no_episodes toprettyxml env st j :
  load_episodes env st = (st, Ok j) -> truthy j = false ->
  main toprettyxml env st
  = (mkSt (clock_reads st) (stdout st ++ [no_episodes_line]) (written st),
     Ok tt).
Proof.
  intros Hl Hj. unfold main. unfold bind at 1. rewrite Hl, Hj. reflexivity.
Qed.

(** [main] on a metadata file whose value is truthy. *)
Lemma main_episodes toprettyxml env st j :
  episodes_meta env = Content j -> truthy j = true ->
  main toprettyxml env st
  = match build_rss j env st with
    | (st1, Ok rss) =>
        match toprettyxml rss with
        | Ok feed =>
            match py_len j with
            | Ok n => (finished st1 feed n, Ok tt)
            | Raise e =>
                (mkSt (clock_reads st1) (stdout st1)
                      (written st1 ++ [("feed.xml", feed)]), Raise e)
            end
        | Raise e => (st1, Raise e)
        end
    | (st1, Raise e) => (st1, Raise e)
    end.
Proof.
  intros Hm Hj. unfold main, load_episodes. unfold bind at 1.
  rewrite Hm, Hj. simpl. unfold generate_rss.
  unfold bind at 1. unfold bind at 1.
  destruct (build_rss j env st) as [st1 [rss|e]]; [|reflexivity].
  unfold lift at 1. destruct (toprettyxml rss) as [feed|e]; [|reflexivity].
  unfold bind at 1, write_file. unfold bind at 1, lift.
  destruct (py_len j) as [n|e]; [|reflexivity].
  unfold bind, print, finished, generated_line, feed_url_line. simpl.
  rewrite <- app_assoc. reflexivity.
Qed.

(** C6.  With the metadata file absent [load_episodes] returns an empty
    list; with the file absent or holding an empty array [main] prints
    [No episodes found in episodes.json!] and returns, and no file has been
    written. *)
Theorem no_episodes_no_feed (toprettyxml : Element -> Result string) env st :
  episodes_meta env = Absent \/ episodes_meta env = Content (JArr []) ->
  load_episodes env st = (st, Ok (JArr []))
  /\ main toprettyxml env st
     = (mkSt (clock_reads st) (stdout st ++ [no_episodes_line]) (written st),
        Ok tt)
  /\ written (fst (main toprettyxml env st)) = written st.
Proof.
  intros H.
  assert (Hl : load_episodes env st = (st, Ok (JArr []))).
  { unfold load_episodes. destruct H as [-> | ->]; reflexivity. }
  split; [exact Hl|].
  rewrite (main_no_episodes toprettyxml env st (JArr []) Hl eq_refl).
  split; reflexivity.
Qed.

Lemma no_episodes_no_feed_witness :
  load_episodes (mkEnv Absent (all_audio 1000) (fun _ => a_time)) initial
  = (initial, Ok (JArr []))
  /\ main toy_xml (mkEnv Absent (all_audio 1000) (fun _ => a_time)) initial
     = (mkSt 0 ["No episodes found in episodes.json!"] [], Ok tt)
  /\ written (fst (main toy_xml
                     (mkEnv Absent (all_audio 1000) (fun _ => a_time))
                     initial)) = [].
Proof.
  apply (no_episodes_no_feed toy_xml
           (mkEnv Absent (all_audio 1000) (fun _ => a_time)) initial).
  left. reflexivity.
Defined.

Lemma chars_nonempty c s : chars (String c s) <> [].
Proof.
  simpl. destruct s as [|c' s']; [discriminate|].
  destruct (is_continuation c'); [|discriminate].
  destruct (chars (String c' s')); discriminate.
Qed.

(** A truthy value that the sort accepts is an array of mappings. *)
Lemma no_mapping_nil {A} (g : A -> json) (l : list A) :
  (forall x, is_mapping (g x) = false) ->
  forallb is_mapping (map g l) = true -> l = [].
Proof.
  intros Hg. destruct l as [|x l]; [reflexivity|].
  simpl. now rewrite Hg.
Qed.

Lemma sorted_truthy_array j s :
  truthy j = true -> sorted_reverse date_key j = Ok s ->
  exists eps, j = JArr eps /\ array_of_mappings j = true.
Proof.
  intros Ht Hs.
  destruct (sorted_reverse_mappings j s Hs) as (l & Hl & Hm).
  destruct j as [| | |str|items|d]; try discriminate Hl.
  - destruct str as [|c str]; [discriminate Ht|].
    assert (E : l = map JStr (chars (String c str))).
    { unfold py_iter in Hl. congruence. }
    subst l. apply no_mapping_nil in Hm; [|reflexivity].
    now apply chars_nonempty in Hm.
  - injection Hl as <-. exists items. auto.
  - assert (E : l = map (fun kv => JStr (fst kv)) d).
    { unfold py_iter in Hl. congruence. }
    subst l. apply no_mapping_nil in Hm; [|reflexivity].
    subst d. discriminate Ht.
Qed.

Lemma build_rss_not_array env st j :
  truthy j = true -> array_of_mappings j = false ->
  is_ok (snd (build_rss j env st)) = false.
Proof.
  intros Ht Ha. unfold build_rss. unfold bind at 1, lift.
  destruct (sorted_reverse date_key j) as [s|e] eqn:Hs; [|reflexivity].
  destruct (sorted_truthy_array j s Ht Hs) as (eps & _ & H). congruence.
Qed.

Lemma build_rss_written env st j :
  written (fst (build_rss j env st)) = written st.
Proof.
  unfold build_rss. unfold bind at 1, lift.
  destruct (sorted_reverse date_key j) as [s|e]; [|reflexivity].
  pose proof (episode_items_written env s st) as H. unfold bind.
  destruct (episode_items s env st) as [st' [items|e]]; exact H.
Qed.

(** What a successful [generate_rss] has done. *)
Lemma build_rss_ok_inv env st st1 j rss :
  truthy j = true -> build_rss j env st = (st1, Ok rss) ->
  exists eps sorted lines,
    j = JArr eps /\ Permutation eps sorted
    /\ stdout st1 = stdout st ++ lines /\ written st1 = written st
    /\ Forall2 warning_of (filter (audio_missing env) sorted) lines
    /\ Forall2 (item_of env) (filter (audio_exists env) sorted) (feed_items rss).
Proof.
  intros Ht Hrun.
  pose proof (build_rss_written env st j) as Hw. rewrite Hrun in Hw.
  unfold build_rss in Hrun. unfold bind at 1, lift in Hrun.
  destruct (sorted_reverse date_key j) as [s|e] eqn:Hs; [|discriminate].
  destruct (sorted_truthy_array j s Ht Hs) as (eps & -> & _).
  unfold bind in Hrun.
  destruct (episode_items s env st) as [st' [items|e]] eqn:Hloop;
    [|discriminate].
  injection Hrun as -> <-.
  pose proof (episode_items_ok_passable _ _ _ _ _ Hloop) as Hp.
  destruct (episode_items_pass env s Hp st) as (items' & lines & Hrun & Hi & Hl).
  rewrite Hloop in Hrun. injection Hrun as -> <-.
  exists eps, s, lines. simpl.
  repeat split; try assumption.
  - now apply sorted_reverse_perm in Hs.
  - rewrite feed_items_rss; [assumption|eapply Forall2_tags; eassumption].
Qed.

Lemma filter_length_le {A} (f : A -> bool) l :
  List.length (filter f l) <= List.length l.
Proof.
  induction l as [|x l IH]; simpl; [lia|]. destruct (f x); simpl; lia.
Qed.

(** C9.  When [main] has written the feed, the count in
    [Generated feed.xml with N episodes] is the number of records loaded
    from the metadata file, while the feed has one item for each record
    whose audio file exists; so N can be greater than the number of items,
    as it is for two records of which one has no audio file. *)
Theorem summary_counts_loaded_records :
  (forall (toprettyxml : Element -> Result string) env st st' j,
      episodes_meta env = Content j -> truthy j = true ->
      main toprettyxml env st = (st', Ok tt) ->
      exists eps st1 rss feed,
        j = JArr eps
        /\ build_rss j env st = (st1, Ok rss)
        /\ toprettyxml rss = Ok feed
        /\ st' = finished st1 feed (List.length eps)
        /\ List.length (feed_items rss)
           = List.length (filter (audio_exists env) eps)
        /\ List.length (feed_items rss) <= List.length eps)
  /\ (exists env st' st1 rss,
        episodes_meta env = Content (JArr [ep_jan1; ep_jan2])
        /\ main toy_xml env initial = (st', Ok tt)
        /\ In (generated_line 2) (stdout st')
        /\ build_rss (JArr [ep_jan1; ep_jan2]) env initial = (st1, Ok rss)
        /\ List.length (feed_items rss) = 1).
Proof.
  split.
  - intros toprettyxml env st st' j Hm Ht Hmain.
    rewrite (main_episodes toprettyxml env st j Hm Ht) in Hmain.
    destruct (build_rss j env st) as [st1 [rss|e]] eqn:Hrun; [|discriminate].
    destruct (toprettyxml rss) as [feed|e] eqn:Hfeed; [|discriminate].
    destruct (build_rss_ok_inv env st st1 j rss Ht Hrun)
      as (eps & sorted & lines & -> & Hperm & _ & _ & _ & Hitems).
    simpl in Hmain. injection Hmain as <-.
    exists eps, st1, rss, feed.
    assert (Hlen : List.length (feed_items rss)
                   = List.length (filter (audio_exists env) eps)).
    { rewrite <- (Forall2_length Hitems).
      apply Permutation_length, Permutation_sym, filter_perm, Hperm. }
    repeat split; try assumption.
    rewrite Hlen. apply filter_length_le.
  - exists (mkEnv (Content (JArr [ep_jan1; ep_jan2]))
                  (audio_but "episodes/ep2.mp3") (fun _ => a_time)).
    eexists. eexists. eexists.
    split; [reflexivity|].
    split; [vm_compute; reflexivity|].
    split; [vm_compute; auto|].
    split; [vm_compute; reflexivity|].
    vm_compute. reflexivity.
Qed.

Lemma summary_counts_loaded_records_witness :
  exists eps st1 rss feed,
    JArr [ep_jan1; ep_jan2; ep_undated] = JArr eps
    /\ build_rss (JArr [ep_jan1; ep_jan2; ep_undated])
         (mkEnv (Content (JArr [ep_jan1; ep_jan2; ep_undated]))
                (audio_but "episodes/ep2.mp3") (fun _ => a_time))
         initial = (st1, Ok rss)
    /\ toy_xml rss = Ok feed
    /\ fst (main toy_xml
              (mkEnv (Content (JArr [ep_jan1; ep_jan2; ep_undated]))
                     (audio_but "episodes/ep2.mp3") (fun _ => a_time))
              initial)
       = finished st1 feed (List.length eps)
    /\ List.length (feed_items rss)
       = List.length
           (filter (audio_exists
                      (mkEnv (Content (JArr [ep_jan1; ep_jan2; ep_undated]))
                             (audio_but "episodes/ep2.mp3") (fun _ => a_time)))
                   eps)
    /\ List.length (feed_items rss) <= List.length eps.
Proof.
  apply (proj1 summary_counts_loaded_records toy_xml
           (mkEnv (Content (JArr [ep_jan1; ep_jan2; ep_undated]))
                  (audio_but "episodes/ep2.mp3") (fun _ => a_time))
           initial _ (JArr [ep_jan1; ep_jan2; ep_undated]) eq_refl eq_refl).
  vm_compute. reflexivity.
Defined.

(** ** Failures *)

(** [main] opens [feed.xml] only once [generate_rss] has returned the
    whole document: a run that raises has written nothing. *)
Lemma main_failure_writes_nothing toprettyxml env st :
  is_ok (snd (main toprettyxml env st)) = false ->
  written (fst (main toprettyxml env st)) = written st.
Proof.
  destruct (episodes_meta env) as [| |j] eqn:Hm.
  - intros _. unfold main, load_episodes. unfold bind at 1. rewrite Hm.
    reflexivity.
  - intros _. unfold main, load_episodes. unfold bind at 1. rewrite Hm.
    reflexivity.
  - destruct (truthy j) eqn:Ht.
    + rewrite (main_episodes toprettyxml env st j Hm Ht).
      pose proof (build_rss_written env st j) as Hw.
      destruct (build_rss j env st) as [st1 [rss|e]] eqn:Hrun; [|intros _; exact Hw].
      destruct (toprettyxml rss) as [feed|e]; [|intros _; exact Hw].
      destruct (build_rss_ok_inv env st st1 j rss Ht Hrun) as (eps & _ & _ & -> & _).
      simpl. discriminate.
    + intros _. rewrite (main_no_episodes toprettyxml env st j); [reflexivity| |exact Ht].
      unfold load_episodes. now rewrite Hm.
Qed.

Lemma main_raise toprettyxml env st j :
  episodes_meta env = Content j -> truthy j = true ->
  is_ok (snd (build_rss j env st)) = false ->
  is_ok (snd (main toprettyxml env st)) = false.
Proof.
  intros Hm Ht H. rewrite (main_episodes toprettyxml env st j Hm Ht).
  destruct (build_rss j env st) as [st1 [rss|e]]; [discriminate H|reflexivity].
Qed.

Lemma untitled_found_not_passable env ep :
  field ep "title" = None -> audio_exists env ep = true ->
  passable env ep = false.
Proof.
  unfold passable, audio_exists. intros ->.
  destruct (audio_path ep); [|reflexivity]. now intros ->.
Qed.

(** C5, as the specification has it, does not hold: a record with no title
    whose audio file is missing is skipped, and [main] writes the feed. *)
Lemma untitled_skipped_counterexample :
  field ep_untitled "title" = None
  /\ truthy (JArr [ep_untitled]) = true
  /\ main toy_xml
       (mkEnv (Content (JArr [ep_untitled])) (audio_but "episodes/ep4.mp3")
              (fun _ => a_time))
       initial
     = (mkSt 0
          [ "WARNING: episodes/ep4.mp3 not found, skipping";
            "Generated feed.xml with 1 episodes";
            "Feed URL: https://jackknifeai.github.io/truth-report-podcast/feed.xml" ]
          [ ("feed.xml",
             tags_of (rss_element [])) ],
        Ok tt).
Proof.
  split; [reflexivity|]. split; [reflexivity|]. vm_compute. reflexivity.
Qed.

(** C5, amended.  When the metadata file holds a value that is not empty
    and is not an array of mappings, or an array with a record that has no
    filename, or with a record that has no title and whose audio file
    exists, [main] raises and has opened no file for writing. *)
Theorem malformed_input_fails_before_write
    (toprettyxml : Element -> Result string) env st j :
  episodes_meta env = Content j -> truthy j = true ->
  (array_of_mappings j = false
   \/ exists eps ep,
        j = JArr eps /\ In ep eps
        /\ (field ep "filename" = None
            \/ (field ep "title" = None /\ audio_exists env ep = true))) ->
  is_ok (snd (main toprettyxml env st)) = false
  /\ written (fst (main toprettyxml env st)) = written st.
Proof.
  intros Hm Ht Hbad.
  assert (H : is_ok (snd (main toprettyxml env st)) = false).
  { apply (main_raise toprettyxml env st j Hm Ht).
    destruct Hbad as [Ha|(eps & ep & -> & Hin & Hep)].
    - now apply build_rss_not_array.
    - apply (build_rss_raise env st eps ep Hin).
      destruct Hep as [Hf|[Htitle Hex]].
      + now apply no_filename_not_passable.
      + now apply untitled_found_not_passable. }
  split; [exact H|]. now apply main_failure_writes_nothing.
Qed.

Lemma malformed_input_fails_before_write_witness :
  is_ok (snd (main toy_xml
                (mkEnv (Content (JArr [ep_jan2; ep_untitled]))
                       (all_audio 1000) (fun _ => a_time))
                initial)) = false
  /\ written (fst (main toy_xml
                     (mkEnv (Content (JArr [ep_jan2; ep_untitled]))
                            (all_audio 1000) (fun _ => a_time))
                     initial)) = [].
Proof.
  apply (malformed_input_fails_before_write toy_xml
           (mkEnv (Content (JArr [ep_jan2; ep_untitled]))
                  (all_audio 1000) (fun _ => a_time))
           initial (JArr [ep_jan2; ep_untitled]) eq_refl eq_refl).
  right. exists [ep_jan2; ep_untitled], ep_untitled.
  split; [reflexivity|]. split; [simpl; auto|].
  right. split; reflexivity.
Defined.

Example not_json_raises :
  main toy_xml (mkEnv NotJson (all_audio 1000) (fun _ => a_time)) initial
  = (initial, Raise JSONDecodeError).
Proof. reflexivity. Qed.

Example mapping_instead_of_array_raises :
  main toy_xml
    (mkEnv (Content (JObj [("episodes", JArr [ep_jan1])]))
           (all_audio 1000) (fun _ => a_time)) initial
  = (initial, Raise AttributeError).
Proof. reflexivity. Qed.

Example unnamed_record_raises :
  main toy_xml
    (mkEnv (Content (JArr [ep_jan1; ep_unnamed]))
           (all_audio 1000) (fun _ => a_time)) initial
  = (mkSt 1 [] [], Raise (KeyError "filename")).
Proof. vm_compute. reflexivity. Qed.

(** ** Running twice *)

Section TwoRuns.
Variables env1 env2 : Env.
Hypothesis same_meta : episodes_meta env1 = episodes_meta env2.
Hypothesis same_files : stat env1 = stat env2.

(** A record with a date gets the same item whatever the clock says. *)
Lemma episode_item_clock ep st :
  omits_date ep = false ->
  episode_item ep env1 st = episode_item ep env2 st.
Proof.
  intros Hd. unfold episode_item.
  destruct ep as [| | | |l|d]; try reflexivity.
  simpl in Hd. run.
  destruct (dict_get d "filename") as [[| | |f| |]|]; run; try reflexivity.
  rewrite same_files.
  destruct (stat env2 (posix_join EPISODES_DIR f)) as [n|] eqn:Hs; run;
    [|reflexivity].
  destruct (dict_get d "title") as [t|]; run; [|reflexivity].
  destruct (duration_children (JObj d)) as [dur|e]; run; [|reflexivity].
  destruct (generate_guid (JObj d)) as [g|e]; run; [|reflexivity].
  rewrite ?same_files, ?Hs.
  destruct (dict_get d "date") as [v|]; [reflexivity|discriminate Hd].
Qed.

Lemma episode_items_clock eps :
  Forall (fun ep => omits_date ep = false) eps ->
  forall st, episode_items eps env1 st = episode_items eps env2 st.
Proof.
  induction 1 as [|ep eps Hep _ IH]; intros st; [reflexivity|].
  simpl. unfold bind at 1 3. rewrite (episode_item_clock ep st Hep).
  destruct (episode_item ep env2 st) as [st' [o|e]]; [|reflexivity].
  unfold bind. now rewrite IH.
Qed.

Lemma iter_dated j l :
  Forall (fun ep => omits_date ep = false) (records (Content j)) ->
  py_iter j = Ok l -> Forall (fun ep => omits_date ep = false) l.
Proof.
  intros Hd Hl. destruct j as [| | |s|items|d]; try discriminate Hl.
  - injection Hl as <-. apply Forall_forall. intros x Hx.
    apply in_map_iff in Hx as (c & <- & _). reflexivity.
  - injection Hl as <-. exact Hd.
  - injection Hl as <-. apply Forall_forall. intros x Hx.
    apply in_map_iff in Hx as (c & <- & _). reflexivity.
Qed.

Lemma build_rss_clock j st :
  Forall (fun ep => omits_date ep = false) (records (Content j)) ->
  build_rss j env1 st = build_rss j env2 st.
Proof.
  intros Hd. unfold build_rss. unfold bind at 1 3, lift.
  destruct (sorted_reverse date_key j) as [s|e] eqn:Hs; [|reflexivity].
  destruct (sorted_reverse_iter _ _ _ Hs) as (l & Hl & Hperm).
  unfold bind. rewrite episode_items_clock; [reflexivity|].
  eapply Permutation_Forall; [exact Hperm|]. now apply (iter_dated j).
Qed.

Lemma main_clock toprettyxml st :
  Forall (fun ep => omits_date ep = false) (records (episodes_meta env1)) ->
  main toprettyxml env1 st = main toprettyxml env2 st.
Proof.
  pose proof same_meta as Hm2. revert Hm2.
  case_eq (episodes_meta env1); [intros Hm1|intros Hm1|intros j Hm1];
    intros Hm2 Hd; symmetry in Hm2.
  - rewrite (main_no_episodes toprettyxml env1 st (JArr []));
      [|unfold load_episodes; now rewrite Hm1|reflexivity].
    rewrite (main_no_episodes toprettyxml env2 st (JArr []));
      [|unfold load_episodes; now rewrite Hm2|reflexivity].
    reflexivity.
  - unfold main, load_episodes, bind. now rewrite Hm1, Hm2.
  - destruct (truthy j) eqn:Ht.
    + rewrite (main_episodes toprettyxml env1 st j Hm1 Ht).
      rewrite (main_episodes toprettyxml env2 st j Hm2 Ht).
      now rewrite build_rss_clock.
    + rewrite (main_no_episodes toprettyxml env1 st j);
        [|unfold load_episodes; now rewrite Hm1|exact Ht].
      rewrite (main_no_episodes toprettyxml env2 st j);
        [|unfold load_episodes; now rewrite Hm2|exact Ht].
      reflexivity.
Qed.
End TwoRuns.

Lemma not_all_dated l :
  ~ Forall (fun ep => omits_date ep = false) l ->
  Exists (fun ep => omits_date ep = true) l.
Proof.
  induction l as [|ep l IH]; intros H.
  - exfalso. apply H. constructor.
  - destruct (omits_date ep) eqn:Hd.
    + now apply Exists_cons_hd.
    + apply Exists_cons_tl, IH. intros Hl. apply H. now constructor.
Qed.

(** C4.  Two runs of [main] on the same metadata file and the same audio
    files, in which every record has a date, print the same lines and
    write the same bytes to [feed.xml], whatever the clock says in either
    run; two runs on the same input can differ only if some record has no
    date. *)
Theorem rerun_writes_same_feed
    (toprettyxml : Element -> Result string) meta files now1 now2 st :
  (Forall (fun ep => omits_date ep = false) (records meta) ->
   main toprettyxml (mkEnv meta files now1) st
   = main toprettyxml (mkEnv meta files now2) st)
  /\ (main toprettyxml (mkEnv meta files now1) st
      <> main toprettyxml (mkEnv meta files now2) st ->
      Exists (fun ep => omits_date ep = true) (records meta)).
Proof.
  split.
  - intros Hd. now apply main_clock.
  - intros Hne. apply not_all_dated. intros Hd. apply Hne.
    now apply main_clock.
Qed.

Lemma rerun_writes_same_feed_witness :
  main toy_xml
    (mkEnv (Content (JArr [ep_jan1; ep_jan2])) (all_audio 1000)
           (fun _ => a_time)) initial
  = main toy_xml
      (mkEnv (Content (JArr [ep_jan1; ep_jan2])) (all_audio 1000)
             (fun _ => another_time)) initial.
Proof.
  apply (proj1 (rerun_writes_same_feed toy_xml
                  (Content (JArr [ep_jan1; ep_jan2])) (all_audio 1000)
                  (fun _ => a_time) (fun _ => another_time) initial)).
  repeat constructor.
Defined.

(** With a record that has no date the feed changes with the clock. *)
Example undated_feed_follows_clock :
  written (fst (main toy_xml
                  (mkEnv (Content (JArr [ep_undated])) (all_audio 1000)
                         (fun _ => a_time)) initial))
  <> written (fst (main toy_xml
                     (mkEnv (Content (JArr [ep_undated])) (all_audio 1000)
                            (fun _ => another_time)) initial)).
Proof. vm_compute. intros H. discriminate H. Qed.

(** ** Runs of the script *)

(** The enclosure of an item: the url is built from the filename, the
    length is the size of the file at the joined path. *)
Example enclosure_of_item :
  option_map (fun item => map attrib_of (findall "enclosure" item))
    (match item_for scenario_env 0 ep_jan1 with
     | Ok o => o
     | Raise _ => None
     end)
  = Some [[ ("url",
             "https://jackknifeai.github.io/truth-report-podcast/episodes/ep1.mp3");
            ("length", "1000"); ("type", "audio/mpeg") ]].
Proof. vm_compute. reflexivity. Qed.

(** An absolute filename replaces the episodes directory in the path that
    is looked up, and not in the url. *)
Example absolute_filename :
  audio_path (JObj [("filename", JStr "/srv/ep9.mp3")]) = Some "/srv/ep9.mp3"
  /\ stdout (fst (build_rss (JArr [JObj [("filename", JStr "/srv/ep9.mp3")]])
                    (mkEnv Absent (fun _ => None) (fun _ => a_time)) initial))
     = ["WARNING: /srv/ep9.mp3 not found, skipping"].
Proof. split; vm_compute; reflexivity. Qed.

(** Records with the same date keep the order of the metadata file. *)
Example same_date_keeps_order :
  sorted_reverse date_key
    (JArr [ ep_untitled; ep_jan2; ep_jan1; ep_undated; ep_unnamed ])
  = Ok [ ep_untitled; ep_jan1; ep_jan2; ep_unnamed; ep_undated ].
Proof. vm_compute. reflexivity. Qed.

(** Dates that cannot be ordered: a number and a string. *)
Example mixed_dates_raise :
  sorted_reverse date_key
    (JArr [ ep_jan1; JObj [("filename", JStr "ep6.mp3"); ("date", JNum 20250101)] ])
  = Raise TypeError.
Proof. reflexivity. Qed.

(** A filename that is not a string. *)
Example numeric_filename_raises :
  snd (build_rss (JArr [JObj [("filename", JNum 7); ("title", JStr "Seven")]])
         scenario_env initial)
  = Raise TypeError.
Proof. reflexivity. Qed.

(** A whole run: one of two audio files is missing. *)
Example run_with_one_missing :
  main toy_xml
    (mkEnv (Content (JArr [ep_jan2; ep_jan1])) (audio_but "episodes/ep1.mp3")
           (fun _ => a_time)) initial
  = (mkSt 1
       [ "WARNING: episodes/ep1.mp3 not found, skipping";
         "Generated feed.xml with 2 episodes";
         "Feed URL: https://jackknifeai.github.io/truth-report-podcast/feed.xml" ]
       [ ("feed.xml",
          tags_of (rss_element
                     [item_at scenario_env 0 ep_jan2 "ep2.mp3"
                              (JStr "Episode 2") 1000])) ],
     Ok tt).
Proof. vm_compute. reflexivity. Qed.

(** * Further properties of the script *)

(** ** The turns of the loop *)


Lemma turn_error_run env st ep e :
  turn_error env ep = Some e -> episode_item ep env st = (st, Raise e).
Proof.
  unfold turn_error, episode_item.
  destruct ep as [| | | |l|d]; run; try (intros [= <-]; reflexivity).
  destruct (dict_get d "filename") as [[| | |f| |]|]; run;
    try (intros [= <-]; reflexivity).
  destruct (stat env (posix_join EPISODES_DIR f)) as [n|]; run;
    [|discriminate].
  destruct (dict_get d "title"); run; [discriminate|].
  intros [= <-]. reflexivity.
Qed.

(** The loop on a list made of two: the second part is processed from the
    state the first part leaves, unless the first part raises. *)
Lemma episode_items_app env l1 l2 st :
  episode_items (l1 ++ l2) env st
  = match episode_items l1 env st with
    | (st1, Ok i1) =>
        match episode_items l2 env st1 with
        | (st2, Ok i2) => (st2, Ok (i1 ++ i2))
        | (st2, Raise e) => (st2, Raise e)
        end
    | (st1, Raise e) => (st1, Raise e)
    end.
Proof.
  revert st. induction l1 as [|ep l1 IH]; intros st; simpl.
  - unfold ret. destruct (episode_items l2 env st) as [st2 [i2|e]]; reflexivity.
  - unfold bind.
    destruct (episode_item ep env st) as [st0 [o|e]]; [|reflexivity].
    rewrite IH.
    destruct (episode_items l1 env st0) as [st1 [i1|e]]; [|reflexivity].
    unfold ret.
    destruct (episode_items l2 env st1) as [st2 [i2|e]]; [|reflexivity].
    destruct o; reflexivity.
Qed.


(** X2.  [generate_rss] stops at the first record, in sorted order, whose
    turn raises: the exception is that of this record, the records after it
    are not looked at, the warnings of the records before it have been
    printed, and the clock has been read once for each record before it
    whose audio file exists. *)
Theorem generate_rss_stops_at_first_failure
    (toprettyxml : Element -> Result string) env st j pre bad post e :
  sorted_reverse date_key j = Ok (pre ++ bad :: post) ->
  Forall (fun ep => passable env ep = true) pre ->
  turn_error env bad = Some e ->
  exists lines,
    generate_rss toprettyxml j env st
    = (mkSt (clock_reads st
             + List.length (filter (audio_exists env) pre))
            (stdout st ++ lines) (written st),
       Raise e)
    /\ Forall2 warning_of (filter (audio_missing env) pre) lines.
Proof.
  intros Hsort Hpre Hbad.
  destruct (episode_items_pass env pre Hpre st)
    as (items & lines & Hrun & Hitems & Hlines).
  exists lines. split; [|exact Hlines].
  unfold generate_rss, build_rss. unfold bind at 1 2, lift at 1.
  rewrite Hsort. unfold bind at 1.
  rewrite episode_items_app, Hrun. simpl. unfold bind at 1.
  rewrite (turn_error_run _ _ _ _ Hbad).
  now rewrite (Forall2_length Hitems).
Qed.

Lemma generate_rss_stops_at_first_failure_witness :
  exists lines,
    generate_rss toy_xml
      (JArr [ep_undated; ep_jan2; ep_unnamed; ep_untitled])
      (mkEnv Absent (audio_but "episodes/ep4.mp3") (fun _ => a_time)) initial
    = (mkSt (0 + 1) ([] ++ lines) [], Raise (KeyError "filename"))
    /\ Forall2 warning_of [ep_untitled] lines.
Proof.
  apply (generate_rss_stops_at_first_failure toy_xml
           (mkEnv Absent (audio_but "episodes/ep4.mp3") (fun _ => a_time))
           initial (JArr [ep_undated; ep_jan2; ep_unnamed; ep_untitled])
           [ep_untitled; ep_jan2] ep_unnamed [ep_undated]
           (KeyError "filename")).
  - reflexivity.
  - repeat constructor.
  - reflexivity.
Defined.

(** ** What is printed and written *)

Lemma warns_about_cons env ep eps line :
  warns_about env eps line -> warns_about env (ep :: eps) line.
Proof.
  intros (x & p & Hin & H). exists x, p. split; [now right|exact H].
Qed.

Lemma episode_items_step env ep eps st st0 o st' r :
  episode_item ep env st = (st0, Ok o) ->
  episode_items eps env st0 = (st', r) ->
  exists r', episode_items (ep :: eps) env st = (st', r').
Proof.
  intros H1 H2. simpl. unfold bind at 1. rewrite H1. unfold bind at 1.
  rewrite H2. destruct r; eexists; reflexivity.
Qed.

Lemma episode_items_effects env eps :
  forall st, exists st' r lines,
    episode_items eps env st = (st', r)
    /\ stdout st' = stdout st ++ lines
    /\ clock_reads st <= clock_reads st'
    /\ Forall (warns_about env eps) lines.
Proof.
  induction eps as [|ep eps IH]; intros st.
  - exists st, (Ok []), []. simpl. rewrite app_nil_r. repeat split; auto.
  - destruct (passable env ep) eqn:Hp.
    + destruct (episode_item_passes env st ep Hp)
        as [(Hm & _ & line & (p & Hpath & ->) & Hrun)
           |(_ & _ & item & _ & Hrun)].
      * destruct (IH (with_line st (warning_line p)))
          as (st' & r & lines & Hrest & Hout & Hclk & Hw).
        destruct (episode_items_step _ _ _ _ _ _ _ _ Hrun Hrest) as (r' & Hr').
        exists st', r', (warning_line p :: lines).
        split; [exact Hr'|]. simpl in *.
        split; [rewrite Hout, <- app_assoc; reflexivity|].
        split; [exact Hclk|].
        constructor.
        -- exists ep, p. repeat split; auto; [now left|].
           unfold audio_missing in Hm. rewrite Hpath in Hm.
           now destruct (path_exists env p).
        -- eapply Forall_impl; [|exact Hw]. intros l. apply warns_about_cons.
      * destruct (IH (mkSt (S (clock_reads st)) (stdout st) (written st)))
          as (st' & r & lines & Hrest & Hout & Hclk & Hw).
        destruct (episode_items_step _ _ _ _ _ _ _ _ Hrun Hrest) as (r' & Hr').
        exists st', r', lines.
        split; [exact Hr'|]. simpl in *.
        split; [exact Hout|]. split; [lia|].
        eapply Forall_impl; [|exact Hw]. intros l. apply warns_about_cons.
    + destruct (episode_item_raises env st ep Hp) as (e & Hrun).
      exists st, (Raise e), []. simpl. unfold bind at 1. rewrite Hrun.
      rewrite app_nil_r. repeat split; auto.
Qed.

(** X3.  Whatever its input, and whether it returns or raises,
    [generate_rss] writes no file, keeps the lines already printed, and
    prints nothing but warnings: each line it adds is
    [WARNING: <path> not found, skipping] for a record of the input whose
    audio file is missing. *)
Theorem generate_rss_prints_only_warnings
    (toprettyxml : Element -> Result string) env st j :
  exists st' r lines,
    generate_rss toprettyxml j env st = (st', r)
    /\ stdout st' = stdout st ++ lines
    /\ written st' = written st
    /\ clock_reads st <= clock_reads st'
    /\ Forall (fun line => exists eps, py_iter j = Ok eps
                                       /\ warns_about env eps line) lines.
Proof.
  pose proof (build_rss_written env st j) as Hw.
  assert (H : exists st' r lines,
             build_rss j env st = (st', r)
             /\ stdout st' = stdout st ++ lines
             /\ clock_reads st <= clock_reads st'
             /\ Forall (fun line => exists eps, py_iter j = Ok eps
                                      /\ warns_about env eps line) lines).
  { unfold build_rss. unfold bind at 1, lift.
    destruct (sorted_reverse date_key j) as [s|e] eqn:Hs.
    - destruct (sorted_reverse_iter _ _ _ Hs) as (l & Hl & Hperm).
      destruct (episode_items_effects env s st)
        as (st' & r & lines & Hrun & Hout & Hclk & Hwarn).
      unfold bind. rewrite Hrun.
      exists st'.
      exists (match r with Ok items => Ok (rss_element items)
                         | Raise e => Raise e end), lines.
      split; [destruct r; reflexivity|].
      split; [exact Hout|]. split; [exact Hclk|].
      eapply Forall_impl; [|exact Hwarn].
      intros line (x & p & Hin & Hrest). exists l. split; [exact Hl|].
      exists x, p. split; [|exact Hrest].
      eapply Permutation_in; [apply Permutation_sym, Hperm|exact Hin].
    - exists st, (Raise e), []. rewrite app_nil_r. repeat split; auto. }
  destruct H as (st' & r & lines & Hrun & Hout & Hclk & Hwarn).
  rewrite Hrun in Hw. simpl in Hw.
  unfold generate_rss, bind. rewrite Hrun.
  destruct r as [rss|e].
  - exists st', (toprettyxml rss), lines. unfold lift. auto.
  - exists st', (Raise e), lines. auto.
Qed.

(** ** The value of the metadata file *)

Lemma falsy_values j :
  truthy j = false <->
  (j = JNull \/ j = JBool false \/ j = JNum 0 \/ j = JStr ""
   \/ j = JArr [] \/ j = JObj []).
Proof.
  split.
  - destruct j as [|b|n|s|l|d]; simpl; intros H.
    + auto.
    + subst b. auto.
    + apply negb_false_iff, Z.eqb_eq in H. subst n. auto.
    + apply negb_false_iff, String.eqb_eq in H. subst s. auto 6.
    + destruct l; [auto 6|discriminate].
    + destruct d; [auto 7|discriminate].
  - intros [->|[->|[->|[->|[->| ->]]]]]; reflexivity.
Qed.

(** X4.  [main] takes every falsy value of the metadata file for "no
    episodes": [null], [false], [0], the empty string, the empty array and
    the empty object all make it print
    [No episodes found in episodes.json!] and return, with no file written
    and no exception, and they are the only values that do. *)
Theorem falsy_metadata_is_no_episodes
    (toprettyxml : Element -> Result string) env st j :
  episodes_meta env = Content j ->
  (j = JNull \/ j = JBool false \/ j = JNum 0 \/ j = JStr ""
   \/ j = JArr [] \/ j = JObj [])
  <-> main toprettyxml env st = (with_line st no_episodes_line, Ok tt).
Proof.
  intros Hm. rewrite <- falsy_values. split.
  - intros Hf. apply (main_no_episodes toprettyxml env st j); [|exact Hf].
    unfold load_episodes. now rewrite Hm.
  - intros Hrun. destruct (truthy j) eqn:Ht; [|reflexivity].
    rewrite (main_episodes toprettyxml env st j Hm Ht) in Hrun.
    pose proof (build_rss_written env st j) as Hw.
    destruct (build_rss j env st) as [st1 [rss|e]] eqn:Hb; [|discriminate].
    destruct (toprettyxml rss) as [feed|e]; [|discriminate].
    destruct (build_rss_ok_inv env st st1 j rss Ht Hb) as (eps & _ & _ & -> & _).
    simpl in Hrun. injection Hrun as Hclk Hstd Hwr.
    simpl in Hw. rewrite Hw in Hwr.
    apply (f_equal (@List.length _)) in Hwr.
    rewrite length_app in Hwr. simpl in Hwr. lia.
Qed.

Lemma falsy_metadata_is_no_episodes_witness :
  main toy_xml (mkEnv (Content (JObj [])) (all_audio 1000) (fun _ => a_time))
       initial
  = (with_line initial no_episodes_line, Ok tt).
Proof.
  apply (proj1 (falsy_metadata_is_no_episodes toy_xml
                  (mkEnv (Content (JObj [])) (all_audio 1000)
                         (fun _ => a_time))
                  initial (JObj []) eq_refl)).
  auto 7.
Defined.

(** X5.  When the serialisation of the tree raises, [main] raises the same
    exception and [feed.xml] is not opened: the state is the one
    [generate_rss] left, with the warnings printed and no summary line. *)
Theorem serialisation_failure_writes_nothing
    (toprettyxml : Element -> Result string) env st j st1 rss e :
  episodes_meta env = Content j -> truthy j = true ->
  build_rss j env st = (st1, Ok rss) ->
  toprettyxml rss = Raise e ->
  main toprettyxml env st = (st1, Raise e) /\ written st1 = written st.
Proof.
  intros Hm Ht Hb He.
  rewrite (main_episodes toprettyxml env st j Hm Ht), Hb, He.
  split; [reflexivity|].
  pose proof (build_rss_written env st j) as Hw. now rewrite Hb in Hw.
Qed.

Lemma serialisation_failure_writes_nothing_witness :
  main (fun _ => Raise ExpatError)
       (mkEnv (Content (JArr [ep_jan1; ep_untitled]))
              (audio_but "episodes/ep4.mp3") (fun _ => a_time)) initial
  = (mkSt 1 ["WARNING: episodes/ep4.mp3 not found, skipping"] [],
     Raise ExpatError)
  /\ written (mkSt 1 ["WARNING: episodes/ep4.mp3 not found, skipping"] [])
     = written initial.
Proof.
  eapply (serialisation_failure_writes_nothing (fun _ => Raise ExpatError)
            (mkEnv (Content (JArr [ep_jan1; ep_untitled]))
                   (audio_but "episodes/ep4.mp3") (fun _ => a_time))
            initial (JArr [ep_jan1; ep_untitled])).
  - reflexivity.
  - reflexivity.
  - vm_compute. reflexivity.
  - reflexivity.
Defined.

Lemma rmap_date_key_attr l :
  forallb is_mapping l = false -> rmap date_key l = Raise AttributeError.
Proof.
  induction l as [|x l IH]; simpl; [discriminate|].
  destruct x; simpl; try reflexivity.
  intros H. now rewrite (IH H).
Qed.

(** X6.  A value of the metadata file that is not empty and is not an array
    of mappings makes [generate_rss] raise before anything is printed or
    read: a [TypeError] for a number or [true], which cannot be iterated,
    and an [AttributeError] for an object, a string, or an array with an
    element that is not a mapping, on which [.get] is missing. *)
Theorem not_array_of_mappings_exception
    (toprettyxml : Element -> Result string) env st j :
  truthy j = true -> array_of_mappings j = false ->
  generate_rss toprettyxml j env st
  = (st, Raise (match j with
                | JNull | JBool _ | JNum _ => TypeError
                | _ => AttributeError
                end)).
Proof.
  intros Ht Ha.
  assert (Hs : sorted_reverse date_key j
               = Raise (match j with
                        | JNull | JBool _ | JNum _ => TypeError
                        | _ => AttributeError
                        end)).
  { unfold sorted_reverse.
    destruct j as [|b|n|s|l|d]; try reflexivity.
    - destruct s as [|c s]; [discriminate Ht|].
      unfold py_iter. pose proof (chars_nonempty c s) as Hne.
      destruct (chars (String c s)) as [|x xs]; [congruence|reflexivity].
    - simpl in Ha. simpl. now rewrite (rmap_date_key_attr l Ha).
    - destruct d as [|[k v] d]; [discriminate Ht|reflexivity]. }
  unfold generate_rss, build_rss. unfold bind at 1 2, lift at 1.
  now rewrite Hs.
Qed.

Lemma not_array_of_mappings_exception_witness :
  generate_rss toy_xml (JArr [ep_jan1; JStr "ep2.mp3"]) scenario_env initial
  = (initial, Raise AttributeError).
Proof.
  apply (not_array_of_mappings_exception toy_xml scenario_env initial
           (JArr [ep_jan1; JStr "ep2.mp3"])); reflexivity.
Defined.

Lemma missing_passable env ep :
  audio_missing env ep = true -> passable env ep = true.
Proof.
  unfold audio_missing, passable.
  destruct (audio_path ep); [|discriminate].
  now destruct (path_exists env s).
Qed.

Lemma filter_none {A} (f : A -> bool) l :
  Forall (fun x => f x = false) l -> filter f l = [].
Proof.
  induction 1 as [|x l Hx _ IH]; simpl; [reflexivity|]. now rewrite Hx.
Qed.

Lemma filter_all {A} (f : A -> bool) l :
  Forall (fun x => f x = true) l -> filter f l = l.
Proof.
  induction 1 as [|x l Hx _ IH]; simpl; [reflexivity|]. now rewrite Hx, IH.
Qed.

Lemma missing_not_exists env ep :
  audio_missing env ep = true -> audio_exists env ep = false.
Proof.
  unfold audio_missing, audio_exists.
  destruct (audio_path ep); [|reflexivity].
  now destruct (path_exists env s).
Qed.

(** X7.  When the audio file of every record is missing, [main] does not
    fail: it prints one warning for each record, writes the feed that has
    the channel and no item, and reports the number of records loaded. *)
Theorem no_audio_gives_empty_feed
    (toprettyxml : Element -> Result string) env st eps feed :
  episodes_meta env = Content (JArr eps) -> eps <> [] ->
  Forall (fun ep => sortable ep = true) eps ->
  Forall (fun ep => audio_missing env ep = true) eps ->
  toprettyxml (rss_element []) = Ok feed ->
  exists lines,
    main toprettyxml env st
    = (finished (mkSt (clock_reads st) (stdout st ++ lines) (written st))
                feed (List.length eps), Ok tt)
    /\ List.length lines = List.length eps
    /\ Forall (warns_about env eps) lines.
Proof.
  intros Hm Hne Hs Hmiss Hfeed.
  assert (Hp : Forall (fun ep => passable env ep = true) eps).
  { eapply Forall_impl; [|exact Hmiss]. intros ep. apply missing_passable. }
  destruct (build_rss_pass env st eps Hs Hp)
    as (sorted & items & lines & Hperm & Hrun & _ & Hitems & Hlines).
  assert (Hmiss' : Forall (fun ep => audio_missing env ep = true) sorted).
  { eapply Permutation_Forall; eassumption. }
  rewrite filter_none in Hitems.
  2:{ eapply Forall_impl; [|exact Hmiss']. intros ep. apply missing_not_exists. }
  inversion Hitems; subst.
  rewrite (filter_all _ _ Hmiss') in Hlines.
  exists lines.
  assert (Ht : truthy (JArr eps) = true) by (destruct eps; [congruence|reflexivity]).
  rewrite (main_episodes toprettyxml env st (JArr eps) Hm Ht), Hrun, Hfeed.
  simpl. rewrite Nat.add_0_r. split; [reflexivity|]. split.
  - rewrite <- (Forall2_length Hlines). symmetry. now apply Permutation_length.
  - clear - Hlines Hperm Hmiss'.
    assert (H : forall l ls, Forall2 warning_of l ls ->
                Forall (fun ep => audio_missing env ep = true) l ->
                Forall (warns_about env l) ls).
    { induction 1 as [|ep line l ls (p & Hp & ->) _ IH]; intros Hall;
        [constructor|].
      inversion Hall as [|? ? Hep Hall']; subst. constructor.
      - exists ep, p. repeat split; auto; [now left|].
        unfold audio_missing in Hep. rewrite Hp in Hep.
        now destruct (path_exists env p).
      - eapply Forall_impl; [|apply IH, Hall']. intros x.
        apply warns_about_cons. }
    eapply Forall_impl; [|apply (H _ _ Hlines Hmiss')].
    intros line (x & p & Hin & Hrest). exists x, p. split; [|exact Hrest].
    eapply Permutation_in; [apply Permutation_sym, Hperm|exact Hin].
Qed.

Lemma no_audio_gives_empty_feed_witness :
  exists lines,
    main toy_xml
      (mkEnv (Content (JArr [ep_jan1; ep_undated])) (fun _ => None)
             (fun _ => a_time)) initial
    = (finished (mkSt 0 ([] ++ lines) []) (tags_of (rss_element [])) 2, Ok tt)
    /\ List.length lines = 2
    /\ Forall (warns_about
                 (mkEnv (Content (JArr [ep_jan1; ep_undated])) (fun _ => None)
                        (fun _ => a_time))
                 [ep_jan1; ep_undated]) lines.
Proof.
  apply (no_audio_gives_empty_feed toy_xml
           (mkEnv (Content (JArr [ep_jan1; ep_undated])) (fun _ => None)
                  (fun _ => a_time))
           initial [ep_jan1; ep_undated] (tags_of (rss_element [])));
    try reflexivity; try discriminate; repeat constructor.
Defined.

(** ** Paths and guids *)

Lemma prefix_slash s :
  String.prefix "/" s = true -> exists t, s = String "/" t.
Proof.
  destruct s as [|c s]; [discriminate|].
  change (String.prefix "/" (String c s))
    with (if ascii_dec "/" c then String.prefix "" s else false).
  destruct (ascii_dec "/" c) as [<-|]; [|discriminate].
  intros _. now exists s.
Qed.

Lemma posix_join_relative f :
  String.prefix "/" f = false ->
  posix_join EPISODES_DIR f = ("episodes/" ++ f)%string.
Proof. unfold posix_join. now intros ->. Qed.

Lemma posix_join_absolute f :
  String.prefix "/" f = true -> posix_join EPISODES_DIR f = f.
Proof. unfold posix_join. now intros ->. Qed.

(** X8.  Two filenames are joined with the episodes directory to the same
    path only if they are the same filename: records with different
    filenames never share an audio file path. *)
Theorem audio_path_injective ep1 ep2 f1 f2 p :
  field ep1 "filename" = Some (JStr f1) ->
  field ep2 "filename" = Some (JStr f2) ->
  audio_path ep1 = Some p -> audio_path ep2 = Some p ->
  f1 = f2.
Proof.
  unfold audio_path. intros -> -> [= <-] [= H].
  destruct (String.prefix "/" f1) eqn:P1; destruct (String.prefix "/" f2) eqn:P2.
  - now rewrite !posix_join_absolute in H by assumption.
  - rewrite (posix_join_absolute f1 P1), (posix_join_relative f2 P2) in H.
    apply prefix_slash in P1 as (t & ->). discriminate H.
  - rewrite (posix_join_relative f1 P1), (posix_join_absolute f2 P2) in H.
    apply prefix_slash in P2 as (t & ->). discriminate H.
  - rewrite (posix_join_relative f1 P1), (posix_join_relative f2 P2) in H.
    simpl in H. now injection H.
Qed.

Lemma audio_path_injective_witness :
  "/srv/ep1.mp3" = "/srv/ep1.mp3".
Proof.
  apply (audio_path_injective
           (JObj [("filename", JStr "/srv/ep1.mp3"); ("title", JStr "One")])
           (JObj [("filename", JStr "/srv/ep1.mp3")])
           "/srv/ep1.mp3" "/srv/ep1.mp3" "/srv/ep1.mp3"); reflexivity.
Defined.











(** ** What an item holds *)

Ltac item_children :=
  unfold findattrib, findtext, findall, child_tags, item_at, item_element,
    duration_of; simpl;
  try match goal with
      | |- context [field ?ep "duration"] =>
          destruct (field ep "duration") as [?v|];
          [destruct (truthy v)|]; simpl
      end.

(** X10.  The texts of an item are those of its record: the title as it is
    in the record, the description, or the empty string when the record has
    none, both as [description] and as [itunes:summary], and as guid the MD5
    digest of the filename; author and explicit flag are those of the
    podcast. *)
Theorem item_texts_of_record env ep item :
  item_of env ep item ->
  findtext "title" item = field ep "title"
  /\ findtext "description" item
     = Some (field_or ep "description" (JStr ""))
  /\ findtext "itunes:summary" item = findtext "description" item
  /\ (exists f, field ep "filename" = Some (JStr f)
                /\ findtext "guid" item = Some (JStr (md5_hex f)))
  /\ findtext "itunes:author" item = Some (JStr (author PODCAST))
  /\ findtext "itunes:explicit" item = Some (JStr (explicit PODCAST)).
Proof.
  intros H.
  destruct (item_of_inv _ _ _ H) as (k & f & t & n & Hf & Ht & _ & ->).
  rewrite Ht.
  split; [item_children; reflexivity|].
  split; [item_children; reflexivity|].
  split; [item_children; reflexivity|].
  split; [exists f; split; [exact Hf|item_children; reflexivity]|].
  split; item_children; reflexivity.
Qed.

Lemma item_texts_of_record_witness :
  findtext "title"
    (item_at scenario_env 0 ep_undated "ep3.mp3" (JStr "Episode 3") 1000)
  = Some (JStr "Episode 3")
  /\ findtext "description"
       (item_at scenario_env 0 ep_undated "ep3.mp3" (JStr "Episode 3") 1000)
     = Some (JStr "").
Proof.
  assert (H : item_of scenario_env ep_undated
                (item_at scenario_env 0 ep_undated "ep3.mp3"
                         (JStr "Episode 3") 1000)).
  { exists 0. vm_compute. reflexivity. }
  destruct (item_texts_of_record scenario_env ep_undated _ H)
    as (H1 & H2 & _).
  split; [exact H1|exact H2].
Defined.

(** X11.  The enclosure of an item has three attributes, in this order:
    the url, which is the base url, [/episodes/] and the filename as it is
    in the record; the length, which is the size in decimal of the file at
    the path joined for the existence test; and the type [audio/mpeg]. *)
Theorem item_enclosure env ep item :
  item_of env ep item ->
  exists f n,
    field ep "filename" = Some (JStr f)
    /\ stat env (posix_join EPISODES_DIR f) = Some n
    /\ findattrib "enclosure" item
       = Some [ ("url", base_url PODCAST ++ "/episodes/" ++ f);
                ("length", str_of_N n);
                ("type", "audio/mpeg") ]%string
    /\ List.length (findall "enclosure" item) = 1.
Proof.
  intros H.
  destruct (item_of_inv _ _ _ H) as (k & f & t & n & Hf & _ & Hs & ->).
  exists f, n. split; [exact Hf|]. split; [exact Hs|].
  split; item_children; reflexivity.
Qed.

Lemma item_enclosure_witness :
  exists f n,
    field (JObj [("filename", JStr "/srv/ep9.mp3"); ("title", JNull)])
          "filename" = Some (JStr f)
    /\ stat (mkEnv Absent (all_audio 4096) (fun _ => a_time))
            (posix_join EPISODES_DIR f) = Some n
    /\ findattrib "enclosure"
         (item_at (mkEnv Absent (all_audio 4096) (fun _ => a_time)) 0
            (JObj [("filename", JStr "/srv/ep9.mp3"); ("title", JNull)])
            "/srv/ep9.mp3" JNull 4096)
       = Some [ ("url", base_url PODCAST ++ "/episodes/" ++ f);
                ("length", str_of_N n);
                ("type", "audio/mpeg") ]%string
    /\ List.length
         (findall "enclosure"
            (item_at (mkEnv Absent (all_audio 4096) (fun _ => a_time)) 0
               (JObj [("filename", JStr "/srv/ep9.mp3"); ("title", JNull)])
               "/srv/ep9.mp3" JNull 4096)) = 1.
Proof.
  apply (item_enclosure (mkEnv Absent (all_audio 4096) (fun _ => a_time))
           (JObj [("filename", JStr "/srv/ep9.mp3"); ("title", JNull)])).
  exists 0. vm_compute. reflexivity.
Defined.

(** X12.  The children of an item are, in this order, [title],
    [description], [itunes:summary], [itunes:author], [itunes:explicit],
    then [itunes:duration] if the record has a duration that is truthy,
    then [guid], [pubDate] and [enclosure]: eight children, or nine. *)
Theorem item_children_in_order env ep item :
  item_of env ep item ->
  child_tags item
  = [ "title"; "description"; "itunes:summary"; "itunes:author";
      "itunes:explicit" ]
    ++ map tag_of (duration_of ep)
    ++ [ "guid"; "pubDate"; "enclosure" ]
  /\ List.length (duration_of ep) <= 1
  /\ tag_of item = "item" /\ attrib_of item = [] /\ text_of item = JNull.
Proof.
  intros H.
  destruct (item_of_inv _ _ _ H) as (k & f & t & n & _ & _ & _ & ->).
  split; [|split].
  - unfold child_tags, item_at, item_element. simpl.
    now rewrite !map_app.
  - unfold duration_of. destruct (field ep "duration") as [v|];
      [destruct (truthy v)|]; simpl; lia.
  - repeat split.
Qed.

Lemma item_children_in_order_witness :
  child_tags (item_at scenario_env 0 ep_jan1 "ep1.mp3" (JStr "Episode 1") 1000)
  = [ "title"; "description"; "itunes:summary"; "itunes:author";
      "itunes:explicit" ]
    ++ map tag_of (duration_of ep_jan1)
    ++ [ "guid"; "pubDate"; "enclosure" ]
  /\ List.length (duration_of ep_jan1) <= 1
  /\ tag_of (item_at scenario_env 0 ep_jan1 "ep1.mp3" (JStr "Episode 1") 1000)
     = "item"
  /\ attrib_of (item_at scenario_env 0 ep_jan1 "ep1.mp3" (JStr "Episode 1") 1000)
     = []
  /\ text_of (item_at scenario_env 0 ep_jan1 "ep1.mp3" (JStr "Episode 1") 1000)
     = JNull.
Proof.
  apply (item_children_in_order scenario_env ep_jan1).
  exists 0. vm_compute. reflexivity.
Defined.

(** ** The clock *)

Lemma item_for_pubDate env k ep item :
  item_for env k ep = Ok (Some item) ->
  findtext "pubDate" item = Some (field_or ep "date" (JStr (utcnow env k))).
Proof.
  intros Hk. unfold item_for in Hk.
  pose proof (episode_item_cases env (mkSt k [] []) ep) as H.
  destruct (field ep "filename") as [[| | |f| |]|] eqn:Hf;
    try (rewrite H in Hk; discriminate);
    try (destruct H as (e & H); rewrite H in Hk; discriminate).
  destruct (stat env (posix_join EPISODES_DIR f)) as [n|] eqn:Hs;
    [|rewrite H in Hk; discriminate].
  destruct (field ep "title") as [t|] eqn:Ht;
    [|rewrite H in Hk; discriminate].
  rewrite H in Hk. simpl in Hk. injection Hk as <-.
  apply item_at_pubDate.
Qed.

Lemma episode_items_indexed env eps :
  Forall (fun ep => passable env ep = true) eps ->
  forall st, exists items st',
    episode_items eps env st = (st', Ok items)
    /\ clock_reads st' = clock_reads st + List.length items
    /\ Forall2 (built_at env)
         (combine (filter (audio_exists env) eps)
                  (seq (clock_reads st) (List.length items)))
         items.
Proof.
  induction 1 as [|ep eps Hep _ IH]; intros st.
  - exists [], st. simpl. rewrite Nat.add_0_r. repeat split. constructor.
  - destruct (episode_item_passes env st ep Hep)
      as [(_ & He & line & _ & Hrun)|(He & _ & item & Hi & Hrun)].
    + destruct (IH (with_line st line)) as (items & st' & Hrest & Hclk & Hall).
      exists items, st'. simpl. unfold bind at 1. rewrite Hrun.
      unfold bind at 1. rewrite Hrest. rewrite He.
      repeat split; assumption.
    + destruct (IH (mkSt (S (clock_reads st)) (stdout st) (written st)))
        as (items & st' & Hrest & Hclk & Hall).
      exists (item :: items), st'. simpl. unfold bind at 1. rewrite Hrun.
      unfold bind at 1. rewrite Hrest. rewrite He. simpl in *.
      split; [reflexivity|]. split; [lia|].
      constructor; [|exact Hall].
      split; [exact Hi|now apply item_for_pubDate].
Qed.

(** X13.  The clock is read once for each item, in the order of the feed,
    whether the record has a date or not, and never for a record that is
    skipped; the [pubDate] of an item is the date of its record, or, when
    the record has none, the reading taken at the turn of this item. *)
Theorem clock_read_once_per_item env st eps :
  Forall (fun ep => sortable ep = true) eps ->
  Forall (fun ep => passable env ep = true) eps ->
  exists sorted items st',
    Permutation eps sorted
    /\ build_rss (JArr eps) env st = (st', Ok (rss_element items))
    /\ clock_reads st' = clock_reads st + List.length items
    /\ Forall2 (built_at env)
         (combine (filter (audio_exists env) sorted)
                  (seq (clock_reads st) (List.length items)))
         items.
Proof.
  intros Hs Hp.
  destruct (sorted_reverse_sortable eps Hs) as (sorted & Hsort & Hperm).
  assert (Hp' : Forall (fun ep => passable env ep = true) sorted).
  { eapply Permutation_Forall; eassumption. }
  destruct (episode_items_indexed env sorted Hp' st)
    as (items & st' & Hrun & Hclk & Hall).
  exists sorted, items, st'. repeat split; try assumption.
  unfold build_rss. unfold bind at 1, lift. rewrite Hsort.
  unfold bind. rewrite Hrun. reflexivity.
Qed.

Lemma clock_read_once_per_item_witness :
  exists sorted items st',
    Permutation [ep_undated; ep_untitled; ep_jan2] sorted
    /\ build_rss (JArr [ep_undated; ep_untitled; ep_jan2])
         (mkEnv Absent (audio_but "episodes/ep4.mp3") str_of_nat) initial
       = (st', Ok (rss_element items))
    /\ clock_reads st' = clock_reads initial + List.length items
    /\ Forall2 (built_at (mkEnv Absent (audio_but "episodes/ep4.mp3")
                                str_of_nat))
         (combine (filter (audio_exists
                             (mkEnv Absent (audio_but "episodes/ep4.mp3")
                                    str_of_nat)) sorted)
                  (seq (clock_reads initial) (List.length items)))
         items.
Proof.
  apply (clock_read_once_per_item
           (mkEnv Absent (audio_but "episodes/ep4.mp3") str_of_nat)
           initial [ep_undated; ep_untitled; ep_jan2]);
    repeat constructor.
Defined.

Example undated_item_gets_its_own_reading :
  option_map (fun rss => map (findtext "pubDate") (feed_items rss))
    (match snd (build_rss (JArr [ep_undated; ep_jan2; ep_undated])
                  (mkEnv Absent (all_audio 1000) str_of_nat) initial) with
     | Ok rss => Some rss
     | Raise _ => None
     end)
  = Some [Some (JStr jan2); Some (JStr "1"); Some (JStr "2")].
Proof. vm_compute. reflexivity. Qed.

(** ** The order of the metadata file *)

Lemma ltb_lt s t : String.ltb s t = true <-> String_as_OT.lt s t.
Proof.
  rewrite <- String_as_OT.cmp_lt. unfold String.ltb.
  change (String_as_OT.cmp s t) with (String.compare s t).
  destruct (String.compare s t); split; congruence.
Qed.

Lemma not_ltb_cases s t :
  String.ltb s t = false -> s = t \/ String.ltb t s = true.
Proof.
  unfold String.ltb. rewrite (String.compare_antisym t s).
  destruct (String.compare s t) eqn:E; simpl; try discriminate; auto.
  left. now apply String.compare_eq_iff.
Qed.

Lemma not_before_trans a b c :
  not_before a b -> not_before b c -> not_before a c.
Proof.
  unfold not_before. intros Hab Hbc.
  destruct (String.ltb (date_str a) (date_str c)) eqn:Hac; [|reflexivity].
  destruct (not_ltb_cases _ _ Hab) as [E|Hba].
  - rewrite E in Hac. congruence.
  - apply ltb_lt in Hba, Hac.
    pose proof (String_as_OT.lt_trans _ _ _ Hba Hac) as H.
    apply ltb_lt in H. congruence.
Qed.

Lemma not_before_antisym a b :
  not_before a b -> not_before b a -> date_str a = date_str b.
Proof.
  unfold not_before. intros Hab Hba.
  destruct (not_ltb_cases _ _ Hab) as [E|H]; [exact E|congruence].
Qed.

Lemma sorted_head_greatest a l x :
  Sorted not_before (a :: l) -> In x (a :: l) -> x = a \/ not_before a x.
Proof.
  intros Hs Hin.
  apply Sorted_StronglySorted in Hs;
    [|intros u v w; apply not_before_trans].
  inversion Hs as [|? ? _ Hall]; subst.
  destruct Hin as [<-|Hin]; [now left|].
  right. now apply (proj1 (Forall_forall _ _) Hall).
Qed.

(** A list has one sorted order when no two date strings are the same. *)
Lemma sorted_unique l1 :
  forall l2,
    Permutation l1 l2 -> Sorted not_before l1 -> Sorted not_before l2 ->
    NoDup (map date_str l1) -> l1 = l2.
Proof.
  induction l1 as [|a l1 IH]; intros l2 Hperm H1 H2 Hnd.
  - apply Permutation_nil in Hperm. now subst.
  - destruct l2 as [|b l2].
    { apply Permutation_sym, Permutation_nil in Hperm. discriminate. }
    assert (Hb : In b (a :: l1)).
    { eapply Permutation_in; [apply Permutation_sym, Hperm|now left]. }
    assert (Ha : In a (b :: l2)).
    { eapply Permutation_in; [exact Hperm|now left]. }
    assert (E : a = b).
    { destruct (sorted_head_greatest _ _ _ H1 Hb) as [->|Hab]; [reflexivity|].
      destruct (sorted_head_greatest _ _ _ H2 Ha) as [->|Hba]; [reflexivity|].
      apply (NoDup_map_injective date_str (a :: l1)); auto; [now left|].
      now apply not_before_antisym. }
    subst b. f_equal. apply IH.
    + eapply Permutation_cons_inv; exact Hperm.
    + now inversion H1.
    + now inversion H2.
    + now inversion Hnd.
Qed.

(** X14.  When no two records have the same date string, the feed does not
    depend on the order of the records in the metadata file: two arrays
    with the same records give the same sorted list, and [generate_rss]
    the same outcome. *)
Theorem feed_independent_of_file_order
    (toprettyxml : Element -> Result string) env st l1 l2 :
  Forall (fun ep => sortable ep = true) l1 ->
  Permutation l1 l2 ->
  NoDup (map date_str l1) ->
  sorted_reverse date_key (JArr l1) = sorted_reverse date_key (JArr l2)
  /\ generate_rss toprettyxml (JArr l1) env st
     = generate_rss toprettyxml (JArr l2) env st.
Proof.
  intros Hs1 Hperm Hnd.
  assert (Hs2 : Forall (fun ep => sortable ep = true) l2).
  { eapply Permutation_Forall; eassumption. }
  destruct (sorted_reverse_sortable l1 Hs1) as (s1 & E1 & P1).
  destruct (sorted_reverse_sortable l2 Hs2) as (s2 & E2 & P2).
  destruct (sorted_reverse_order l1 s1 Hs1 E1) as [O1 _].
  destruct (sorted_reverse_order l2 s2 Hs2 E2) as [O2 _].
  assert (E : s1 = s2).
  { apply sorted_unique; auto.
    - eapply perm_trans; [apply Permutation_sym, P1|].
      eapply perm_trans; [exact Hperm|exact P2].
    - eapply Permutation_NoDup; [|exact Hnd].
      now apply Permutation_map. }
  assert (Es : sorted_reverse date_key (JArr l1)
               = sorted_reverse date_key (JArr l2)) by congruence.
  split; [exact Es|].
  unfold generate_rss, build_rss, bind, lift.
  now rewrite Es.
Qed.

Lemma feed_independent_of_file_order_witness :
  sorted_reverse date_key (JArr [ep_jan1; ep_jan2; ep_undated])
  = sorted_reverse date_key (JArr [ep_undated; ep_jan2; ep_jan1])
  /\ generate_rss toy_xml (JArr [ep_jan1; ep_jan2; ep_undated])
       scenario_env initial
     = generate_rss toy_xml (JArr [ep_undated; ep_jan2; ep_jan1])
         scenario_env initial.
Proof.
  apply (feed_independent_of_file_order toy_xml scenario_env initial
           [ep_jan1; ep_jan2; ep_undated] [ep_undated; ep_jan2; ep_jan1]).
  - repeat constructor.
  - apply perm_trans with [ep_jan2; ep_undated; ep_jan1].
    + apply perm_trans with [ep_jan2; ep_jan1; ep_undated];
        [apply perm_swap|apply perm_skip, perm_swap].
    + apply perm_swap.
  - apply distinct_NoDup. reflexivity.
Defined.

(** ** The exceptions of generate_rss *)








(** ** The shape of the feed *)



